(** * The job lifecycle and heartbeat protocol of [airflow/jobs/base_job.py]

    A shallow embedding of [BaseJob]: the job record, [most_recent_job],
    [is_alive], [kill], [heartbeat] and [run], followed by the properties
    the specification states about them.

    The ORM session, the clock, the metrics sink, the log and the listener
    manager are collaborators of the class.  Their calls are recorded in a
    trace, and what they answer is given by an environment [Env]: the
    readings of the clock, which storage operations raise
    [OperationalError], what a merge leaves in the in-memory object, what a
    query finds.  The metrics sink, the log and the listener manager are
    taken to return.  The methods a job subtype overrides ([_execute],
    [on_kill], [heartbeat_callback]) are arbitrary computations. *)

From Stdlib Require Import ZArith Floats Uint63.
From stdpp Require Import base option list strings gmap.

Set Warnings "-inexact-float".

Local Open Scope Z_scope.

(** ** Exceptions *)

(** The exceptions the module raises, catches or lets through.  [SystemExit]
    and [KeyboardInterrupt] derive from [BaseException] only; every other
    constructor is a subclass of [Exception]. *)
Inductive Exn : Type :=
| SystemExit
| KeyboardInterrupt
| OperationalError
| AirflowException (msg : string)
| AttributeError
| TypeError
| NotImplementedError
| UserError (code : nat).

(** [isinstance(e, Exception)] *)
Definition is_Exception (e : Exn) : bool :=
  match e with
  | SystemExit | KeyboardInterrupt => false
  | _ => true
  end.

Inductive Outcome (A : Type) : Type :=
| Return (a : A)
| Raise (e : Exn).
Arguments Return {A} a.
Arguments Raise {A} e.

(** ** The job record *)

(** Modelled from the spec: [State] of [airflow.utils.state] is not among
    the sources; the states are those of the data model of the
    specification, [Unset] standing for a [state] column that holds no
    value yet. *)
Inductive JobState : Type :=
| Unset
| Running
| Success
| Failed
| Restarting
| Shutdown.

Definition JobState_eqb (a b : JobState) : bool :=
  match a, b with
  | Unset, Unset | Running, Running | Success, Success
  | Failed, Failed | Restarting, Restarting | Shutdown, Shutdown => true
  | _, _ => false
  end.

(** Timestamps ([UtcDateTime]) are counted in microseconds, the resolution
    of [datetime]; a column without a value is [None]. *)
Definition datetime : Type := Z.

(** The columns of the [job] table and the [heartrate] attribute. *)
Record Job : Type := mkJob {
  id : option Z;
  dag_id : option string;
  state : JobState;
  job_type : string;
  start_date : option datetime;
  end_date : option datetime;
  latest_heartbeat : option datetime;
  executor_class : string;
  hostname : string;
  unixname : string;
  heartrate : float
}.

Definition with_id (v : option Z) (j : Job) : Job :=
  mkJob v (dag_id j) (state j) (job_type j) (start_date j) (end_date j)
        (latest_heartbeat j) (executor_class j) (hostname j) (unixname j)
        (heartrate j).

Definition with_state (v : JobState) (j : Job) : Job :=
  mkJob (id j) (dag_id j) v (job_type j) (start_date j) (end_date j)
        (latest_heartbeat j) (executor_class j) (hostname j) (unixname j)
        (heartrate j).

Definition with_end_date (v : option datetime) (j : Job) : Job :=
  mkJob (id j) (dag_id j) (state j) (job_type j) (start_date j) v
        (latest_heartbeat j) (executor_class j) (hostname j) (unixname j)
        (heartrate j).

Definition with_latest_heartbeat (v : option datetime) (j : Job) : Job :=
  mkJob (id j) (dag_id j) (state j) (job_type j) (start_date j) (end_date j)
        v (executor_class j) (hostname j) (unixname j) (heartrate j).

(** ** Durations *)

(** A whole number of microseconds as the numerator of a division: an
    integer of any size, not yet rounded. *)
Definition microseconds (us : Z) : spec_float :=
  match us with
  | Z0 => S754_zero false
  | Zpos m => S754_finite false m 0
  | Zneg m => S754_finite true m 0
  end.

(** [timedelta.total_seconds()] of a difference of [us] microseconds: the
    true division of the integer [us] by [10**6], rounded once to
    binary64. *)
Definition total_seconds (us : Z) : float :=
  SF2Prim (SFdiv prec emax (microseconds us) (S754_finite false 1000000 0)).

(** [x > 0] on a float *)
Definition positive (x : float) : bool := PrimFloat.ltb 0%float x.

(** [max(0, x)] *)
Definition max0 (x : float) : float := if positive x then x else 0%float.

(** ** [most_recent_job] *)

(** The query is read on [table], the rows of the [job] table as the
    session sees them, in whatever order the database holds them. *)
Section MostRecentJob.

(** The polymorphic identities [session.query(cls)] selects: [None] for
    [BaseJob] itself, whose query carries no criterion on [job_type]. *)
Variable identities : option (list string).

(** Whether the database sorts [NULL] above every value, so that it comes
    first under [DESC]. *)
Variable null_is_largest : bool.

Definition selected (j : Job) : bool :=
  match identities with
  | None => true
  | Some names => bool_decide (job_type j ∈ names)
  end.

Definition query (table : list Job) : list Job :=
  filter (fun j => selected j = true) table.

(** [case({State.RUNNING: 0}, value=cls.state, else_=1)] *)
Definition running_first (j : Job) : Z :=
  if JobState_eqb (state j) Running then 0 else 1.

(** [a] comes no later than [b] under [latest_heartbeat DESC]. *)
Definition heartbeat_desc (a b : option datetime) : bool :=
  match a, b with
  | Some x, Some y => y <=? x
  | None, None => true
  | None, Some _ => null_is_largest
  | Some _, None => negb null_is_largest
  end.

(** [a] comes no later than [b] under the two keys of [order_by]. *)
Definition ordered (a b : Job) : bool :=
  (running_first a <? running_first b)
  || ((running_first a =? running_first b)
      && heartbeat_desc (latest_heartbeat a) (latest_heartbeat b)).

Fixpoint place (j : Job) (sorted : list Job) : list Job :=
  match sorted with
  | [] => [j]
  | k :: rest => if ordered j k then j :: k :: rest else k :: place j rest
  end.

Definition order_by (rows : list Job) : list Job := foldr place [] rows.

Definition most_recent_job (table : list Job) : option Job :=
  head (take 1 (order_by (query table))).

End MostRecentJob.

(** ** The world of a job process *)

(** Methods that subtypes or listeners supply, as they appear in the trace
    at the point where they are called. *)
Inductive Hook : Type :=
| Execute
| OnKill
| HeartbeatCallback
| BeforeStopping.

(** [log.debug], [log.error], [log.exception] *)
Inductive LogLevel : Type :=
| LogDebug
| LogError
| LogException.

(** What the process asks of its collaborators, in the order asked. *)
Inductive Event : Type :=
| SessionAdd (obj : Job)
| SessionMerge (obj : Job)
| SessionQuery (job_id : option Z)
| SessionCommit
| SessionRollback
| SessionClose
| MakeTransient
| Slept (seconds : float)
| Called (h : Hook)
| Logged (level : LogLevel).

(** What the collaborators answer.  Clock readings and storage operations
    are numbered from the start of the process. *)
Record Env : Type := mkEnv {
  (** the [n]-th reading of [timezone.utcnow()] *)
  clock : nat -> datetime;
  (** whether the [n]-th storage operation raises [OperationalError] *)
  fault : nat -> bool;
  (** the in-memory object after the [n]-th storage operation, a
      [session.merge(self)], has reconciled it with the stored row *)
  merged : nat -> Job -> Job;
  (** the row the [n]-th storage operation, a query by [id], returns *)
  found : nat -> option Z -> option Job;
  (** the primary key the [n]-th storage operation, the commit of an added
      object, gives to it *)
  assigned_id : nat -> Z
}.

Record St : Type := mkSt {
  self : Job;
  (** clock readings made so far *)
  ticks : nat;
  (** storage operations made so far *)
  ops : nat;
  (** [self] was added to the open session and is not yet inserted *)
  pending : bool;
  (** the counters of [Stats] *)
  stats : gmap string Z;
  trace : list Event
}.

Definition with_self (j : Job) (s : St) : St :=
  mkSt j (ticks s) (ops s) (pending s) (stats s) (trace s).

Definition with_stats (m : gmap string Z) (s : St) : St :=
  mkSt (self s) (ticks s) (ops s) (pending s) m (trace s).

Definition with_pending (b : bool) (s : St) : St :=
  mkSt (self s) (ticks s) (ops s) b (stats s) (trace s).

Definition tick (s : St) : St :=
  mkSt (self s) (S (ticks s)) (ops s) (pending s) (stats s) (trace s).

Definition emit (e : Event) (s : St) : St :=
  mkSt (self s) (ticks s) (ops s) (pending s) (stats s) (trace s ++ [e]).

(** One more storage operation, recorded as [e]. *)
Definition operate (e : Event) (s : St) : St :=
  mkSt (self s) (ticks s) (S (ops s)) (pending s) (stats s) (trace s ++ [e]).

(** ** Computations that may raise *)

(** The state survives a raise: what was assigned before it stays
    assigned. *)
Definition M (Σ A : Type) : Type := Σ -> Outcome A * Σ.

Definition ret {Σ A} (a : A) : M Σ A := fun s => (Return a, s).

Definition raise {Σ A} (e : Exn) : M Σ A := fun s => (Raise e, s).

Definition bind {Σ A B} (m : M Σ A) (k : A -> M Σ B) : M Σ B :=
  fun s =>
    match m s with
    | (Return a, s') => k a s'
    | (Raise e, s') => (Raise e, s')
    end.

Declare Scope job_scope.
Delimit Scope job_scope with job.
Notation "x <- m ;; k" := (bind m (fun x => k))
  (at level 100, m at next level, right associativity) : job_scope.
Local Open Scope job_scope.

Definition gets {Σ A} (f : Σ -> A) : M Σ A := fun s => (Return (f s), s).

Definition modify {Σ} (f : Σ -> Σ) : M Σ unit := fun s => (Return tt, f s).

(** [try: body finally: final]: [final] runs whatever [body] did, and what
    it raises replaces the outcome of [body]. *)
Definition try_finally {Σ A} (body : M Σ A) (final : M Σ unit) : M Σ A :=
  fun s =>
    match body s with
    | (r, s') =>
        match final s' with
        | (Return _, s'') => (r, s'')
        | (Raise e, s'') => (Raise e, s'')
        end
    end.

(** A computation on the world, run by a method that has local variables of
    type [L]: the callee does not see them. *)
Definition lift {L A} (m : M St A) : M (St * L) A :=
  fun '(s, l) => match m s with (r, s') => (r, (s', l)) end.

Definition set_local {L} (l : L) : M (St * L) unit :=
  fun '(s, _) => (Return tt, (s, l)).

Section Process.

Variable env : Env.

(** [timezone.utcnow()] *)
Definition utcnow : M St datetime :=
  fun s => (Return (clock env (ticks s)), tick s).

(** [Stats.incr(stat, 1, 1)] *)
Definition Stats_incr (stat : string) : M St unit :=
  modify (fun s => with_stats (<[stat := default 0 (stats s !! stat) + 1]> (stats s)) s).

Definition log (level : LogLevel) : M St unit := modify (emit (Logged level)).

Definition sleep (seconds : float) : M St unit := modify (emit (Slept seconds)).

(** A call of a hook, marked in the trace where it starts. *)
Definition call {A} (h : Hook) (body : M St A) : M St A :=
  _ <- modify (emit (Called h)) ;; body.

(** *** The session *)

(** A storage operation: it raises [OperationalError] when the
    environment says so. *)
Definition storage (e : Event) : M St nat :=
  fun s =>
    if fault env (ops s) then (Raise OperationalError, operate e s)
    else (Return (ops s), operate e s).

(** [session.add(self)]: no statement is sent before the commit. *)
Definition session_add : M St unit :=
  modify (fun s => with_pending true (emit (SessionAdd (self s)) s)).

(** [session.commit()]: an object added before is inserted and receives
    its primary key unless it has one. *)
Definition session_commit : M St unit :=
  n <- storage SessionCommit ;;
  modify (fun s =>
    if pending s then
      with_pending false
        (with_self (match id (self s) with
                    | Some _ => self s
                    | None => with_id (Some (assigned_id env n)) (self s)
                    end) s)
    else s).

(** [session.merge(self)] *)
Definition session_merge_self : M St unit :=
  j <- gets self ;;
  n <- storage (SessionMerge j) ;;
  modify (with_self (merged env n j)).

(** [session.merge(job)] for a row the session loaded itself *)
Definition session_merge (job : Job) : M St unit :=
  _ <- storage (SessionMerge job) ;; ret tt.

(** [session.query(BaseJob).filter(BaseJob.id == job_id).first()] *)
Definition session_query_first (job_id : option Z) : M St (option Job) :=
  n <- storage (SessionQuery job_id) ;;
  ret (found env n job_id).

Definition session_rollback : M St unit :=
  modify (fun s => with_pending false (emit SessionRollback s)).

Definition session_close : M St unit :=
  modify (fun s => with_pending false (emit SessionClose s)).

(** [make_transient(self)] *)
Definition make_transient : M St unit := modify (emit MakeTransient).

(** Modelled from the spec: [create_session] of [airflow.utils.session]
    is not among the sources.  It is the scoped transactional session of
    the storage interface: the scope commits when its body ends, rolls
    back when the body (or that commit) raises an [Exception], and closes
    the session in every case.  [up] runs a session call from a method
    with local variables. *)
Definition create_session {Σ A} (up : M St unit -> M Σ unit) (body : M Σ A)
  : M Σ A :=
  try_finally
    (fun s =>
       match (a <- body ;; _ <- up session_commit ;; ret a) s with
       | (Return a, s') => (Return a, s')
       | (Raise e, s') =>
           if is_Exception e then (_ <- up session_rollback ;; raise e) s'
           else (Raise e, s')
       end)
    (up session_close).

(** ** [is_alive] *)

Definition default_grace_multiplier : float := 2.1%float.

Definition is_alive (grace_multiplier : float) : M St bool :=
  j <- gets self ;;
  if JobState_eqb (state j) Running then
    now <- utcnow ;;
    match latest_heartbeat j with
    | Some beat =>
        ret (PrimFloat.ltb (total_seconds (now - beat))
                           (PrimFloat.mul (heartrate j) grace_multiplier))
    | None => raise TypeError
    end
  else ret false.

(** ** The job class *)

(** [State.terminating_states], a constant of [airflow.utils.state] *)
Variable terminating_states : JobState -> bool.

(** [self.__class__.__name__] *)
Variable class_name : string.

(** [convert_camel_to_snake] of [airflow.utils.helpers] *)
Variable convert_camel_to_snake : string -> string.

(** [str.lower] *)
Variable lower : string -> string.

(** The methods a subtype overrides. *)
Variable _execute : M St (option Z).
Variable on_kill : M St unit.
Variable heartbeat_callback : M St unit.

(** ** [kill] *)

(** [try: on_kill() except Exception: log.error(...)] *)
Definition guarded_on_kill : M St unit :=
  fun s =>
    match call OnKill on_kill s with
    | (Return _, s') => (Return tt, s')
    | (Raise e, s') => if is_Exception e then log LogError s' else (Raise e, s')
    end.

(** [kill] called without a [session] argument, as [heartbeat] calls it:
    [provide_session] opens the session of the call, and the row the query
    returns is an object of that session, apart from the object [kill] is
    called on. *)
Definition kill : M St unit :=
  create_session (fun m => m)
    (j <- gets self ;;
     found_job <- session_query_first (id j) ;;
     now <- utcnow ;;
     match found_job with
     | None => raise AttributeError
     | Some job =>
         let job := with_end_date (Some now) job in
         _ <- guarded_on_kill ;;
         _ <- session_merge job ;;
         _ <- session_commit ;;
         raise (AirflowException "Job shut down externally.")
     end).

(** ** [heartbeat] *)

(** [heartrate - (utcnow() - latest_heartbeat).total_seconds()] *)
Definition remaining (j : Job) (now beat : datetime) : float :=
  PrimFloat.sub (heartrate j) (total_seconds (now - beat)).

(** [self.latest_heartbeat = v] *)
Definition set_latest_heartbeat (v : option datetime) : M St unit :=
  modify (fun s => with_self (with_latest_heartbeat v (self s)) s).

(** The first session of the [try]: the object is reconciled with the
    stored row, and the local [previous_heartbeat] takes its heartbeat. *)
Definition heartbeat_reload : M (St * option datetime) unit :=
  create_session lift
    (_ <- lift session_merge_self ;;
     j <- lift (gets self) ;;
     set_local (latest_heartbeat j)).

(** [sleep(sleep_for)] *)
Definition heartbeat_pace : M St unit :=
  j <- gets self ;;
  sleep_for <- match latest_heartbeat j with
               | Some beat =>
                   now <- utcnow ;;
                   ret (max0 (remaining j now beat))
               | None => ret 0%float
               end ;;
  sleep sleep_for.

(** The heartbeat is written, and once the commit is through
    [previous_heartbeat] follows it. *)
Definition heartbeat_commit : M (St * option datetime) unit :=
  _ <- lift session_merge_self ;;
  now <- lift utcnow ;;
  _ <- lift (set_latest_heartbeat (Some now)) ;;
  _ <- lift session_commit ;;
  j <- lift (gets self) ;;
  set_local (latest_heartbeat j).

(** The second session of the [try]. *)
Definition heartbeat_write : M (St * option datetime) unit :=
  create_session lift
    (_ <- heartbeat_commit ;;
     _ <- lift (call HeartbeatCallback heartbeat_callback) ;;
     lift (log LogDebug)).

(** The body of the [try], with the local [previous_heartbeat]. *)
Definition heartbeat_try : M (St * option datetime) unit :=
  _ <- heartbeat_reload ;;
  j <- lift (gets self) ;;
  _ <- (if terminating_states (state j) then lift kill else ret tt) ;;
  _ <- lift heartbeat_pace ;;
  heartbeat_write.

(** The [except OperationalError] clause. *)
Definition heartbeat_failed (previous_heartbeat : option datetime) : M St unit :=
  _ <- Stats_incr (convert_camel_to_snake class_name +:+ "_heartbeat_failure") ;;
  _ <- log LogException ;;
  set_latest_heartbeat previous_heartbeat.

Definition heartbeat (only_if_necessary : bool) : M St unit :=
  j <- gets self ;;
  seconds_remaining <- match latest_heartbeat j with
                       | Some beat =>
                           now <- utcnow ;;
                           ret (remaining j now beat)
                       | None => ret 0%float
                       end ;;
  if positive seconds_remaining && only_if_necessary then ret tt
  else
    fun s =>
      match heartbeat_try (s, latest_heartbeat j) with
      | (Raise OperationalError, (s', previous_heartbeat)) =>
          heartbeat_failed previous_heartbeat s'
      | (r, (s', _)) => (r, s')
      end.

(** ** [run] *)

(** [self.state = v] *)
Definition set_state (v : JobState) : M St unit :=
  modify (fun s => with_self (with_state v (self s)) s).

(** The [try] of [run] with its [except] clauses; its value is [ret]. *)
Definition run_execute : M St (option Z) :=
  fun s =>
    match call Execute _execute s with
    | (Return r, s') => (_ <- set_state Success ;; ret r) s'
    | (Raise SystemExit, s') => (_ <- set_state Success ;; ret None) s'
    | (Raise e, s') =>
        if is_Exception e then (_ <- set_state Failed ;; raise e) s'
        else (Raise e, s')
    end.

(** The [finally] of [run]. *)
Definition run_finalize : M St unit :=
  _ <- modify (emit (Called BeforeStopping)) ;;
  now <- utcnow ;;
  _ <- modify (fun s => with_self (with_end_date (Some now) (self s)) s) ;;
  _ <- session_merge_self ;;
  session_commit.

(** The record is entered in the table as RUNNING. *)
Definition run_register : M St unit :=
  _ <- set_state Running ;;
  _ <- session_add ;;
  _ <- session_commit ;;
  make_transient.

Definition run : M St (option Z) :=
  _ <- Stats_incr (lower class_name +:+ "_start") ;;
  result <-
    create_session (fun m => m)
      (_ <- run_register ;;
       try_finally run_execute run_finalize) ;;
  _ <- Stats_incr (lower class_name +:+ "_end") ;;
  ret result.

End Process.

(** The methods as [BaseJob] itself has them: [on_kill] and
    [heartbeat_callback] do nothing, [_execute] is to be overridden. *)
Definition BaseJob_on_kill : M St unit := ret tt.

Definition BaseJob_heartbeat_callback : M St unit := ret tt.


(** ** Notions the statements use *)

Section Notions.

Variable env : Env.

(** [seconds_remaining] as [heartbeat] computes it on entry. *)
Definition seconds_remaining (s : St) : float :=
  match latest_heartbeat (self s) with
  | Some beat => remaining (self s) (clock env (ticks s)) beat
  | None => 0%float
  end.

(** Whether [heartbeat] returns at once. *)
Definition skipped (only_if_necessary : bool) (s : St) : bool :=
  positive (seconds_remaining s) && only_if_necessary.

(** The world once [seconds_remaining] is computed: the clock was read if
    there is a heartbeat to compare it with. *)
Definition checked (s : St) : St :=
  match latest_heartbeat (self s) with
  | Some _ => tick s
  | None => s
  end.

(** The world in which [kill] calls [on_kill]: the row was queried and
    the clock read, nothing more. *)
Definition at_on_kill (s : St) : St :=
  emit (Called OnKill) (tick (operate (SessionQuery (id (self s))) s)).

(** The world in which [run] calls [_execute]: the start was counted and
    the record entered as RUNNING. *)
Definition entered (lower : string -> string) (class_name : string) (s : St) : St :=
  emit (Called Execute)
    (snd (run_register env (snd (Stats_incr (lower class_name +:+ "_start") s)))).

(** The state [run] records when [_execute] ends with [r] and the object
    is in state [st]. *)
Definition final_state (r : Outcome (option Z)) (st : JobState) : JobState :=
  match r with
  | Return _ | Raise SystemExit => Success
  | Raise e => if is_Exception e then Failed else st
  end.

(** What [run] hands to its caller when [_execute] ends with [r]. *)
Definition run_outcome (r : Outcome (option Z)) : Outcome (option Z) :=
  match r with
  | Return v => Return v
  | Raise SystemExit => Return None
  | Raise e => Raise e
  end.

(** How the session of [run] ends. *)
Definition session_end (r : Outcome (option Z)) : list Event :=
  match run_outcome r with
  | Return _ => [SessionCommit; SessionClose]
  | Raise e => if is_Exception e then [SessionRollback; SessionClose]
               else [SessionClose]
  end.

(** The commit that ends the session of [run] succeeds, where there is
    one: the session commits only when its body returned. *)
Definition session_end_ok (r : Outcome (option Z)) (se : St) : Prop :=
  match run_outcome r with
  | Return _ => fault env (S (S (ops se))) = false
  | Raise _ => True
  end.

(** The record [run] merges in its [finally]. *)
Definition final_record (r : Outcome (option Z)) (s : St) : Job :=
  with_end_date (Some (clock env (ticks s)))
    (with_state (final_state r (state (self s))) (self s)).

(** The events of the [finally] of [run] and of the end of its session,
    when [_execute] ended with [r] in the world [se]. *)
Definition closing (r : Outcome (option Z)) (se : St) : list Event :=
  [Called BeforeStopping; SessionMerge (final_record r se); SessionCommit]
  ++ session_end r.

End Notions.

(** SUCCESS, FAILED and SHUTDOWN are the terminal states. *)
Definition terminal (st : JobState) : bool :=
  match st with
  | Success | Failed | Shutdown => true
  | _ => false
  end.

(** The objects handed to the session, in order. *)
Fixpoint handed (tr : list Event) : list Job :=
  match tr with
  | [] => []
  | SessionAdd j :: rest | SessionMerge j :: rest => j :: handed rest
  | _ :: rest => handed rest
  end.

Definition Hook_eqb (a b : Hook) : bool :=
  match a, b with
  | Execute, Execute | OnKill, OnKill
  | HeartbeatCallback, HeartbeatCallback | BeforeStopping, BeforeStopping => true
  | _, _ => false
  end.

(** Whether a commit comes in the trace before the first call of [h]. *)
Fixpoint committed_before (h : Hook) (tr : list Event) : bool :=
  match tr with
  | [] => false
  | SessionCommit :: _ => true
  | Called h' :: rest => if Hook_eqb h h' then false else committed_before h rest
  | _ :: rest => committed_before h rest
  end.

(** ** Scenarios *)

Module Scenario.

(** A clock that advances by one second from one reading to the next. *)
Definition steady (start : datetime) (n : nat) : datetime :=
  start + Z.of_nat n * 1000000.

(** A job created at time 0, with a heart rate of 60 seconds. *)
Definition job : Job :=
  mkJob (Some 7) None Unset "SchedulerJob" (Some 0) None (Some 0)
        "LocalExecutor" "worker-1" "airflow" 60%float.

Definition world (j : Job) : St := mkSt j 0 0 false ∅ [].

(** Storage that never fails, finds the row of the job as it was
    registered, and leaves a merged object as it is.  The clock starts at
    second 100. *)
Definition calm : Env :=
  mkEnv (steady 100000000) (fun _ => false) (fun _ j => j)
        (fun _ _ => Some (with_state Running job)) (fun _ => 1).

(** The same, but the stored row was set to SHUTDOWN from outside and a
    merge loads it. *)
Definition shut_down : Env :=
  mkEnv (steady 100000000) (fun _ => false)
        (fun _ j => with_state Shutdown j)
        (fun _ _ => Some (with_state Shutdown job)) (fun _ => 1).

(** The same again, but the third storage operation, the query of
    [kill], fails. *)
Definition shut_down_unreachable : Env :=
  mkEnv (steady 100000000) (fun n => Nat.eqb n 2)
        (fun _ j => with_state Shutdown j)
        (fun _ _ => Some (with_state Shutdown job)) (fun _ => 1).

(** Storage whose first operation fails. *)
Definition unreachable : Env :=
  mkEnv (steady 100000000) (fun n => Nat.eqb n 0) (fun _ j => j)
        (fun _ _ => None) (fun _ => 1).

(** [State.terminating_states] as Airflow has it. *)
Definition terminating (st : JobState) : bool :=
  match st with
  | Shutdown | Restarting => true
  | _ => false
  end.

Definition snake (name : string) : string := "scheduler_job".
Definition lower (name : string) : string := "schedulerjob".

Definition nothing : M St unit := ret tt.
Definition fails {A} (e : Exn) : M St A := raise e.
Definition returns (v : option Z) : M St (option Z) := ret v.

(** A clock fixed at [now]. *)
Definition at_time (now : datetime) : Env :=
  mkEnv (fun _ => now) (fun _ => false) (fun _ j => j) (fun _ _ => None)
        (fun _ => 1).

(** The job while it runs, and the world in which [run] calls
    [_execute] on it. *)
Definition running : St := world (with_state Running job).
Definition started : St := entered calm lower "SchedulerJob" (world job).

(** The methods of a scheduler job whose [on_kill] does nothing. *)
Definition beat (env : Env) (callback : M St unit) : bool -> M St unit :=
  heartbeat env terminating "SchedulerJob" snake nothing callback.
Definition job_run (env : Env) (execute : M St (option Z)) : M St (option Z) :=
  run env "SchedulerJob" lower execute.

(** An [_execute] that sends one heartbeat and returns. *)
Definition one_beat (env : Env) : M St (option Z) :=
  _ <- beat env nothing false ;; ret None.

End Scenario.

(** ** More scenarios *)

Module Cases.

(** Rows of two job types. *)
Definition scheduler (st : JobState) (beat : datetime) : Job :=
  mkJob (Some 1) None st "SchedulerJob" (Some 0) None (Some beat)
        "LocalExecutor" "worker-1" "airflow" 5%float.

Definition backfill (st : JobState) (beat : datetime) : Job :=
  mkJob (Some 2) None st "BackfillJob" (Some 0) None (Some beat)
        "LocalExecutor" "worker-2" "airflow" 5%float.

(** [session.query(SchedulerJob)] *)
Definition schedulers : option (list string) := Some ["SchedulerJob"].

(** Storage that finds the row of the running job and fails at its
    [n]-th operation only. *)
Definition failing_at (n : nat) : Env :=
  mkEnv (Scenario.steady 100000000) (fun k => Nat.eqb k n) (fun _ j => j)
        (fun _ _ => Some (with_state Running Scenario.job)) (fun _ => 1).

(** Storage that fails at every operation. *)
Definition down : Env :=
  mkEnv (Scenario.steady 100000000) (fun _ => true) (fun _ j => j)
        (fun _ _ => None) (fun _ => 1).

End Cases.

(** ** Worlds in which a method gives up *)

(** The world [kill] leaves when it could not load the row: the query is
    rolled back and the session closed. *)
Definition gave_up (s : St) : St :=
  with_pending false
    (emit SessionClose
       (with_pending false
          (emit SessionRollback (operate (SessionQuery (id (self s))) s)))).

(** The world [run] leaves when the commit that enters the record failed:
    the start was counted, the object set to RUNNING and added, the session
    rolled back and closed. *)
Definition never_entered (lower : string -> string) (class_name : string)
    (s : St) : St :=
  with_pending false
    (emit SessionClose
       (with_pending false
          (emit SessionRollback
             (operate SessionCommit
                (with_pending true
                   (emit (SessionAdd (with_state Running (self s)))
                      (with_self (with_state Running (self s))
                         (with_stats
                            (<[lower class_name +:+ "_start"
                               := default 0 (stats s !! (lower class_name +:+ "_start")) + 1]>
                               (stats s))
                            s)))))))).

(** * Properties *)

(** ** [most_recent_job] returns the row that sorts first *)

Section MostRecentJobFacts.

Variable identities : option (list string).
Variable null_is_largest : bool.

Local Abbreviation before := (ordered null_is_largest).
Local Abbreviation sorted := (order_by null_is_largest).

Lemma running_first_01 (j : Job) :
  running_first j = 0 /\ state j = Running
  \/ running_first j = 1 /\ state j <> Running.
Proof.
  unfold running_first. destruct (state j); simpl; auto.
Qed.

Lemma heartbeat_desc_total (a b : option datetime) :
  heartbeat_desc null_is_largest a b = true
  \/ heartbeat_desc null_is_largest b a = true.
Proof.
  destruct a as [x|], b as [y|]; simpl; auto.
  - destruct (Z.leb_spec y x); auto. right. apply Z.leb_le. lia.
  - destruct null_is_largest; auto.
  - destruct null_is_largest; auto.
Qed.

Lemma heartbeat_desc_trans (a b c : option datetime) :
  heartbeat_desc null_is_largest a b = true ->
  heartbeat_desc null_is_largest b c = true ->
  heartbeat_desc null_is_largest a c = true.
Proof.
  destruct a as [x|], b as [y|], c as [z|], null_is_largest; simpl;
    try congruence; rewrite ?Z.leb_le; lia.
Qed.

Lemma ordered_total (a b : Job) : before a b = true \/ before b a = true.
Proof.
  unfold ordered.
  destruct (heartbeat_desc_total (latest_heartbeat a) (latest_heartbeat b)) as [H|H];
    rewrite H;
    destruct (running_first_01 a) as [[-> _]|[-> _]],
             (running_first_01 b) as [[-> _]|[-> _]]; simpl; auto.
Qed.

Lemma ordered_trans (a b c : Job) :
  before a b = true -> before b c = true -> before a c = true.
Proof.
  unfold ordered. intros Hab Hbc.
  destruct (running_first_01 a) as [[Ha _]|[Ha _]],
           (running_first_01 b) as [[Hb _]|[Hb _]],
           (running_first_01 c) as [[Hc _]|[Hc _]];
    rewrite Ha, Hb, Hc in *; simpl in *; try congruence;
    eauto using heartbeat_desc_trans.
Qed.

(** The head of a sorted insertion is the smaller of the two heads. *)
Lemma head_place (j : Job) (l : list Job) :
  head (place null_is_largest j l)
  = match head l with
    | Some k => if before j k then Some j else Some k
    | None => Some j
    end.
Proof.
  destruct l as [|k rest]; simpl; [reflexivity|].
  destruct (before j k); reflexivity.
Qed.

(** [ORDER BY ... LIMIT 1]: the first row exists as soon as there is a
    row, is one of the rows, and no row sorts before it. *)
Lemma head_order_by (rows : list Job) :
  match head (sorted rows) with
  | Some r => r ∈ rows /\ forall r', r' ∈ rows -> before r r' = true
  | None => rows = []
  end.
Proof.
  induction rows as [|j rows IH]; simpl; [reflexivity|].
  rewrite head_place.
  destruct (head (sorted rows)) as [k|].
  - destruct IH as [Hk Hmin].
    destruct (before j k) eqn:Hjk.
    + split; [left|]. intros r' Hr'.
      apply elem_of_cons in Hr' as [->|Hr'].
      * destruct (ordered_total j j); assumption.
      * eapply ordered_trans; eauto.
    + split; [right; assumption|]. intros r' Hr'.
      apply elem_of_cons in Hr' as [->|Hr']; [|auto].
      destruct (ordered_total k j); congruence.
  - subst rows. split; [left|]. intros r' Hr'.
    apply list_elem_of_singleton in Hr' as ->.
    destruct (ordered_total j j); assumption.
Qed.

Lemma head_take_1 {A} (l : list A) : head (take 1 l) = head l.
Proof. destruct l; reflexivity. Qed.

(** What [ordered] says in the words of the ordering: a running row
    before every other row, and the later heartbeat first among rows that
    are both running or both not. *)
Lemma ordered_spec (a b : Job) :
  before a b = true ->
  (state b = Running -> state a = Running)
  /\ ((state a = Running <-> state b = Running) ->
      heartbeat_desc null_is_largest (latest_heartbeat a) (latest_heartbeat b) = true).
Proof.
  unfold ordered. intros H.
  destruct (running_first_01 a) as [[Ha Sa]|[Ha Sa]],
           (running_first_01 b) as [[Hb Sb]|[Hb Sb]];
    rewrite Ha, Hb in H; simpl in H; try congruence; tauto.
Qed.

(** C4.  [most_recent_job] returns a row of the queried type before which
    no row of that type sorts: a RUNNING row comes before every row in
    another state, and among rows that are both RUNNING or both not the
    one with the later [latest_heartbeat] comes first; it returns nothing
    only when there is no row of the type.  In the scenario of one RUNNING
    row with heartbeat T-5 and one FAILED row with heartbeat T-1, in
    either order in the table, the RUNNING row is returned. *)
Theorem most_recent_job_sorts_first (table : list Job) :
  match most_recent_job identities null_is_largest table with
  | Some r =>
      r ∈ query identities table
      /\ forall r', r' ∈ query identities table ->
           (state r' = Running -> state r = Running)
           /\ ((state r = Running <-> state r' = Running) ->
               heartbeat_desc null_is_largest
                 (latest_heartbeat r) (latest_heartbeat r') = true
               /\ forall x y, latest_heartbeat r = Some x ->
                              latest_heartbeat r' = Some y -> y <= x)
  | None => query identities table = []
  end
  /\ (forall (T : datetime) (a b : Job),
        state a = Running -> latest_heartbeat a = Some (T - 5000000) ->
        state b = Failed -> latest_heartbeat b = Some (T - 1000000) ->
        selected identities a = true -> selected identities b = true ->
        most_recent_job identities null_is_largest [a; b] = Some a
        /\ most_recent_job identities null_is_largest [b; a] = Some a).
Proof.
  split.
  - unfold most_recent_job. rewrite head_take_1.
    pose proof (head_order_by (query identities table)) as H.
    destruct (head (sorted (query identities table))) as [r|]; [|exact H].
    destruct H as [Hin Hmin]. split; [exact Hin|].
    intros r' Hr'. destruct (ordered_spec r r' (Hmin r' Hr')) as [H1 H2].
    split; [exact H1|]. intros Hgrp. specialize (H2 Hgrp). split; [exact H2|].
    intros x y Hx Hy. rewrite Hx, Hy in H2. simpl in H2. lia.
  - intros T a b Sa Ha Sb Hb Qa Qb.
    unfold most_recent_job, query.
    rewrite !filter_cons_True, filter_nil by assumption. simpl.
    unfold ordered, running_first. rewrite Sa, Sb. simpl.
    split; reflexivity.
Qed.

End MostRecentJobFacts.

(** ** Tactics *)

(** Unfolding the computations down to the worlds they reach. *)
Ltac unfold_world :=
  cbv beta iota zeta delta
    [ret raise bind gets modify try_finally lift set_local
     utcnow Stats_incr log sleep call storage
     session_add session_commit session_merge_self session_merge
     session_query_first session_rollback session_close make_transient
     create_session set_state set_latest_heartbeat
     with_self with_stats with_pending tick emit operate];
  cbn [self ticks ops pending stats trace fst snd is_Exception].

Ltac trace_norm := rewrite <- ?app_assoc; cbn [app].

(** ** [is_alive] *)

Section AliveFacts.

Variable env : Env.

(** C2.  [is_alive] answers true exactly when the state is RUNNING and the
    time since the latest heartbeat, in seconds, is below the heart rate
    times the grace multiplier (whatever the multiplier, 2.1 being the
    default); for every other state it answers false without looking at
    the heartbeat. *)
Theorem is_alive_iff (grace_multiplier : float) (s : St) :
  (fst (is_alive env grace_multiplier s) = Return true
   <-> state (self s) = Running
       /\ exists beat,
            latest_heartbeat (self s) = Some beat
            /\ PrimFloat.ltb
                 (total_seconds (clock env (ticks s) - beat))
                 (PrimFloat.mul (heartrate (self s)) grace_multiplier)
               = true)
  /\ (state (self s) <> Running ->
      is_alive env grace_multiplier s = (Return false, s))
  /\ default_grace_multiplier = 2.1%float.
Proof.
  unfold is_alive. unfold_world.
  destruct (state (self s)) eqn:Hst; simpl;
    (split; [|split; [congruence || reflexivity|reflexivity]]);
    try (split; [discriminate|intros [? _]; discriminate]).
  destruct (latest_heartbeat (self s)) as [beat|]; simpl.
  - split.
    + intros H. split; [reflexivity|]. exists beat. split; [reflexivity|].
      congruence.
    + intros [_ (b & Hb & Hlt)]. injection Hb as <-. rewrite Hlt. reflexivity.
  - split; [discriminate|]. intros [_ (b & Hb & _)]. discriminate.
Qed.

(** C9, as amended.  With a heart rate of 60 seconds and the grace
    multiplier 2.1 the threshold is 126 seconds: 125 seconds after the
    heartbeat a RUNNING job is still alive, as it is after 65 seconds;
    from 126 seconds on, and in every state but RUNNING, it is not. *)
Theorem is_alive_sixty_seconds (T : datetime) (s : St) :
  heartrate (self s) = 60%float ->
  latest_heartbeat (self s) = Some T ->
  (state (self s) = Running -> clock env (ticks s) = T + 125000000 ->
   fst (is_alive env default_grace_multiplier s) = Return true)
  /\ (state (self s) = Running -> clock env (ticks s) = T + 65000000 ->
      fst (is_alive env default_grace_multiplier s) = Return true)
  /\ (clock env (ticks s) = T + 126000000 ->
      fst (is_alive env default_grace_multiplier s) = Return false)
  /\ (state (self s) <> Running ->
      fst (is_alive env default_grace_multiplier s) = Return false).
Proof.
  intros Hrate Hbeat. unfold is_alive. unfold_world.
  rewrite Hrate, Hbeat.
  repeat split.
  - intros Hst Hclock. rewrite Hst. cbn. rewrite Hclock.
    replace (T + 125000000 - T) with 125000000 by lia. reflexivity.
  - intros Hst Hclock. rewrite Hst. cbn. rewrite Hclock.
    replace (T + 65000000 - T) with 65000000 by lia. reflexivity.
  - intros Hclock. destruct (state (self s)); cbn; try reflexivity.
    rewrite Hclock.
    replace (T + 126000000 - T) with 126000000 by lia. reflexivity.
  - intros Hst. destruct (state (self s)); congruence || reflexivity.
Qed.

End AliveFacts.

(** ** [kill] *)

Section KillFacts.

Variable env : Env.
Variable on_kill : M St unit.

(** [kill] is [NoReturn]: whatever happens, it raises. *)
Lemma kill_never_returns (s : St) :
  exists e s', kill env on_kill s = (Raise e, s').
Proof.
  unfold kill, guarded_on_kill. unfold_world.
  destruct (fault env (ops s)); unfold_world; [eauto|].
  destruct (found env (ops s) (id (self s))) as [job|]; unfold_world; [|eauto].
  match goal with |- context [on_kill ?w] => destruct (on_kill w) as [[[]|e] s2] end;
    unfold_world.
  - destruct (fault env (ops s2)); unfold_world; [eauto|].
    destruct (fault env (S (ops s2))); unfold_world; eauto.
  - destruct (is_Exception e) eqn:He; unfold_world; [|rewrite He; eauto].
    destruct (fault env (ops s2)); unfold_world; [eauto|].
    destruct (fault env (S (ops s2))); unfold_world; eauto.
Qed.

(** [kill] when the row is found, its storage operations succeed and the
    hook returns or raises an [Exception]: the signal is raised, and the
    row is merged and committed after the hook. *)
Lemma kill_raises_signal (s s2 : St) (job : Job) (r : Outcome unit) :
  fault env (ops s) = false ->
  found env (ops s) (id (self s)) = Some job ->
  on_kill (at_on_kill s) = (r, s2) ->
  match r with Return _ => True | Raise e => is_Exception e = true end ->
  fault env (ops s2) = false ->
  fault env (S (ops s2)) = false ->
  exists sk,
    kill env on_kill s = (Raise (AirflowException "Job shut down externally."), sk)
    /\ trace sk
       = trace s2
         ++ match r with Return _ => [] | Raise _ => [Logged LogError] end
         ++ [SessionMerge (with_end_date (Some (clock env (ticks s))) job);
             SessionCommit; SessionRollback; SessionClose].
Proof.
  intros Hquery Hfound Hhook Hexn Hmerge Hcommit.
  unfold at_on_kill in Hhook. revert Hhook.
  unfold kill, guarded_on_kill. unfold_world.
  rewrite Hquery. unfold_world. rewrite Hfound. unfold_world.
  intros ->. destruct r as [[]|e]; unfold_world.
  - rewrite Hmerge. unfold_world. rewrite Hcommit. unfold_world.
    destruct (pending s2); unfold_world; trace_norm; eauto.
  - rewrite Hexn. unfold_world. rewrite Hmerge. unfold_world.
    rewrite Hcommit. unfold_world.
    destruct (pending s2); unfold_world; trace_norm; eauto.
Qed.

(** C5, as amended.  [kill] sets [end_date] on the row it loaded before
    it calls [on_kill], and commits the row after the hook has returned
    or raised an [Exception], which is caught and logged: no commit comes
    between the query and the call of the hook, the row is merged and
    committed with [end_date] set to the time read before the hook, and
    the termination signal is raised to the caller.  The row has to be
    found and the storage operations of [kill] have to succeed. *)
Theorem kill_commits_after_on_kill (s s2 : St) (job : Job) (r : Outcome unit) :
  fault env (ops s) = false ->
  found env (ops s) (id (self s)) = Some job ->
  on_kill (at_on_kill s) = (r, s2) ->
  match r with Return _ => True | Raise e => is_Exception e = true end ->
  fault env (ops s2) = false ->
  fault env (S (ops s2)) = false ->
  trace (at_on_kill s) = trace s ++ [SessionQuery (id (self s)); Called OnKill]
  /\ committed_before OnKill [SessionQuery (id (self s)); Called OnKill] = false
  /\ fst (kill env on_kill s) = Raise (AirflowException "Job shut down externally.")
  /\ trace (snd (kill env on_kill s))
     = trace s2
       ++ match r with Return _ => [] | Raise _ => [Logged LogError] end
       ++ [SessionMerge (with_end_date (Some (clock env (ticks s))) job);
           SessionCommit; SessionRollback; SessionClose]
  /\ end_date (with_end_date (Some (clock env (ticks s))) job)
     = Some (clock env (ticks s)).
Proof.
  intros Hquery Hfound Hhook Hexn Hmerge Hcommit.
  destruct (kill_raises_signal s s2 job r Hquery Hfound Hhook Hexn Hmerge Hcommit)
    as (sk & Hkill & Htrace).
  rewrite Hkill. cbn [fst snd].
  split; [unfold at_on_kill; unfold_world; trace_norm; reflexivity|].
  repeat split. exact Htrace.
Qed.

End KillFacts.

(** ** [heartbeat] *)

Section HeartbeatFacts.

Variable env : Env.
Variable terminating_states : JobState -> bool.
Variable class_name : string.
Variable convert_camel_to_snake : string -> string.
Variable on_kill : M St unit.
Variable heartbeat_callback : M St unit.

Local Abbreviation beat :=
  (heartbeat env terminating_states class_name convert_camel_to_snake
             on_kill heartbeat_callback).
Local Abbreviation attempt :=
  (heartbeat_try env terminating_states on_kill heartbeat_callback).
Local Abbreviation failed :=
  (heartbeat_failed class_name convert_camel_to_snake).
Local Abbreviation failure_counter :=
  (convert_camel_to_snake class_name +:+ "_heartbeat_failure").

(** [heartbeat] either returns at once or runs its [try]. *)
Lemma heartbeat_unfold (only_if_necessary : bool) (s : St) :
  beat only_if_necessary s
  = if skipped env only_if_necessary s then (Return tt, checked s)
    else match attempt (checked s, latest_heartbeat (self s)) with
         | (Raise OperationalError, (s', previous_heartbeat)) =>
             failed previous_heartbeat s'
         | (r, (s', _)) => (r, s')
         end.
Proof.
  unfold heartbeat, skipped, seconds_remaining, checked. unfold_world.
  destruct (latest_heartbeat (self s)) as [b|]; unfold_world.
  - destruct (positive _ && only_if_necessary); reflexivity.
  - destruct (positive 0 && only_if_necessary); reflexivity.
Qed.

(** C8.  Called with [only_if_necessary] while the heart rate has not yet
    elapsed since the latest heartbeat, [heartbeat] returns at once: the
    clock was read, and the object, the session (no storage operation, no
    event in the trace, so no hook either) and the counters are as
    before. *)
Theorem heartbeat_not_due (s : St) (b : datetime) :
  latest_heartbeat (self s) = Some b ->
  positive (remaining (self s) (clock env (ticks s)) b) = true ->
  beat true s = (Return tt, tick s)
  /\ self (tick s) = self s
  /\ ops (tick s) = ops s
  /\ trace (tick s) = trace s
  /\ stats (tick s) = stats s
  /\ pending (tick s) = pending s.
Proof.
  intros Hbeat Hdue. rewrite heartbeat_unfold.
  unfold skipped, seconds_remaining, checked. rewrite Hbeat, Hdue.
  repeat split.
Qed.

(** What the [except] clause leaves. *)
Lemma heartbeat_failed_spec (previous_heartbeat : option datetime) (s : St) :
  exists s',
    failed previous_heartbeat s = (Return tt, s')
    /\ self s' = with_latest_heartbeat previous_heartbeat (self s)
    /\ stats s' = <[failure_counter := default 0 (stats s !! failure_counter) + 1]> (stats s)
    /\ trace s' = trace s ++ [Logged LogException]
    /\ ops s' = ops s.
Proof.
  unfold heartbeat_failed. unfold_world. eexists. repeat split.
Qed.

(** The pacing sleep always returns, and touches neither the object nor
    the session. *)
Lemma heartbeat_pace_spec (s : St) :
  fst (heartbeat_pace env s) = Return tt
  /\ self (snd (heartbeat_pace env s)) = self s
  /\ ops (snd (heartbeat_pace env s)) = ops s
  /\ pending (snd (heartbeat_pace env s)) = pending s
  /\ stats (snd (heartbeat_pace env s)) = stats s.
Proof.
  unfold heartbeat_pace. unfold_world.
  destruct (latest_heartbeat (self s)); unfold_world; repeat split.
Qed.

(** A reload that went through: both its storage operations succeeded,
    the object is what the merge made of it, and [previous_heartbeat] is
    its heartbeat. *)
Lemma heartbeat_reload_ok (s s1 : St) (p0 p1 : option datetime) :
  heartbeat_reload env (s, p0) = (Return tt, (s1, p1)) ->
  fault env (ops s) = false
  /\ fault env (S (ops s)) = false
  /\ p1 = latest_heartbeat (self s1)
  /\ ops s1 = S (S (ops s))
  /\ ticks s1 = ticks s
  /\ stats s1 = stats s.
Proof.
  unfold heartbeat_reload. unfold_world.
  destruct (fault env (ops s)); unfold_world; [discriminate|].
  destruct (fault env (S (ops s))); unfold_world; [discriminate|].
  destruct (pending s); unfold_world; intros [= <- <-]; unfold_world;
    repeat split.
  destruct (id _); reflexivity.
Qed.


(** The [try] runs the reload, then [kill] if the reloaded state asks for
    it, then the pacing sleep and the write. *)
Lemma heartbeat_try_unfold (s : St) (p0 : option datetime) :
  attempt (s, p0)
  = match heartbeat_reload env (s, p0) with
    | (Return _, (s1, p1)) =>
        if terminating_states (state (self s1)) then
          match kill env on_kill s1 with
          | (Return _, sk) =>
              heartbeat_write env heartbeat_callback
                (snd (heartbeat_pace env sk), p1)
          | (Raise e, sk) => (Raise e, (sk, p1))
          end
        else
          heartbeat_write env heartbeat_callback
            (snd (heartbeat_pace env s1), p1)
    | (Raise e, sp) => (Raise e, sp)
    end.
Proof.
  unfold heartbeat_try, bind at 1.
  destruct (heartbeat_reload env (s, p0)) as [[[]|e] [s1 p1]]; [|reflexivity].
  unfold bind at 1, lift at 1, gets. cbn [fst snd].
  unfold bind at 1.
  destruct (terminating_states (state (self s1))).
  - unfold lift at 1. destruct (kill env on_kill s1) as [[[]|e] sk]; [|reflexivity].
    unfold bind, lift.
    pose proof (heartbeat_pace_spec sk) as [Hp _].
    destruct (heartbeat_pace env sk) as [o s2]. cbn [fst snd] in *. subst o.
    reflexivity.
  - unfold ret at 1, bind, lift.
    pose proof (heartbeat_pace_spec s1) as [Hp _].
    destruct (heartbeat_pace env s1) as [o s2]. cbn [fst snd] in *. subst o.
    reflexivity.
Qed.

(** C6, as amended.  When the reload went through and left the object in
    a terminating state, [heartbeat] calls [kill] and ends as [kill] ends:
    the pacing sleep and the heartbeat write are not reached, [kill] never
    returns, and the termination signal it raises goes to the caller of
    [heartbeat].  A transient storage failure inside [kill] is absorbed
    like any other: [heartbeat] then returns after the [except] clause. *)
Theorem heartbeat_kills_on_terminating_state
    (only_if_necessary : bool) (s s1 : St) (p1 : option datetime) :
  skipped env only_if_necessary s = false ->
  heartbeat_reload env (checked s, latest_heartbeat (self s))
    = (Return tt, (s1, p1)) ->
  terminating_states (state (self s1)) = true ->
  beat only_if_necessary s
    = match kill env on_kill s1 with
      | (Raise OperationalError, sk) => failed p1 sk
      | (r, sk) => (r, sk)
      end
  /\ (exists e sk, kill env on_kill s1 = (Raise e, sk))
  /\ (forall msg sk,
        kill env on_kill s1 = (Raise (AirflowException msg), sk) ->
        beat only_if_necessary s = (Raise (AirflowException msg), sk))
  /\ (forall sk,
        kill env on_kill s1 = (Raise OperationalError, sk) ->
        fst (beat only_if_necessary s) = Return tt)
  /\ (forall job r s2,
        fault env (ops s1) = false ->
        found env (ops s1) (id (self s1)) = Some job ->
        on_kill (at_on_kill s1) = (r, s2) ->
        match r with Return _ => True | Raise e => is_Exception e = true end ->
        fault env (ops s2) = false ->
        fault env (S (ops s2)) = false ->
        fst (beat only_if_necessary s)
        = Raise (AirflowException "Job shut down externally.")).
Proof.
  intros Hskip Hreload Hterm.
  assert (Hbeat : beat only_if_necessary s
                  = match kill env on_kill s1 with
                    | (Raise OperationalError, sk) => failed p1 sk
                    | (r, sk) => (r, sk)
                    end).
  { rewrite heartbeat_unfold, Hskip, heartbeat_try_unfold, Hreload, Hterm.
    destruct (kill_never_returns env on_kill s1) as (e & sk & Hkill).
    rewrite Hkill. destruct e; reflexivity. }
  split; [exact Hbeat|]. split; [apply kill_never_returns|].
  split; [|split].
  - intros msg sk Hkill. rewrite Hbeat, Hkill. reflexivity.
  - intros sk Hkill. rewrite Hbeat, Hkill.
    destruct (heartbeat_failed_spec p1 sk) as (s' & -> & _). reflexivity.
  - intros job r s2 Hquery Hfound Hhook Hexn Hmerge Hcommit.
    destruct (kill_raises_signal env on_kill s1 s2 job r
                Hquery Hfound Hhook Hexn Hmerge Hcommit) as (sk & Hkill & _).
    rewrite Hbeat, Hkill. reflexivity.
Qed.


(** The write of the heartbeat when its merge and its commit succeed:
    [previous_heartbeat] becomes the time just read. *)
Lemma heartbeat_commit_ok (s : St) (p : option datetime) :
  fault env (ops s) = false ->
  fault env (S (ops s)) = false ->
  exists s3,
    heartbeat_commit env (s, p) = (Return tt, (s3, Some (clock env (ticks s))))
    /\ latest_heartbeat (self s3) = Some (clock env (ticks s))
    /\ stats s3 = stats s.
Proof.
  intros Hmerge Hcommit. unfold heartbeat_commit. unfold_world.
  rewrite Hmerge. unfold_world. rewrite Hcommit. unfold_world.
  destruct (pending s); unfold_world; [destruct (id _)|];
    eexists; repeat split.
Qed.

(** When that merge or that commit fails, the second session ends with
    [previous_heartbeat] as it was. *)
Lemma heartbeat_write_fails_early (s : St) (p : option datetime) :
  fault env (ops s) = true \/ fault env (S (ops s)) = true ->
  exists s',
    heartbeat_write env heartbeat_callback (s, p)
      = (Raise OperationalError, (s', p))
    /\ stats s' = stats s.
Proof.
  intros Hfault. unfold heartbeat_write, heartbeat_commit. unfold_world.
  destruct (fault env (ops s)) eqn:Hmerge; unfold_world.
  - eexists. repeat split.
  - destruct Hfault as [?|Hcommit]; [discriminate|].
    rewrite Hcommit. unfold_world. eexists. repeat split.
Qed.

(** When the hook raises [OperationalError] after the commit, the second
    session ends with the [previous_heartbeat] the commit left. *)
Lemma heartbeat_write_hook_fails (s s3 sh : St) (p p3 : option datetime) :
  heartbeat_commit env (s, p) = (Return tt, (s3, p3)) ->
  heartbeat_callback (emit (Called HeartbeatCallback) s3)
    = (Raise OperationalError, sh) ->
  exists s',
    heartbeat_write env heartbeat_callback (s, p)
      = (Raise OperationalError, (s', p3))
    /\ stats s' = stats sh.
Proof.
  intros Hcommit Hhook. unfold heartbeat_write.
  unfold create_session, try_finally, bind at 1 2.
  rewrite Hcommit. unfold_world. unfold emit in Hhook. rewrite Hhook.
  unfold_world. eexists. repeat split.
Qed.

(** C3, as amended.  A transient storage failure anywhere in the [try]
    of [heartbeat] is not propagated, adds exactly 1 to the failure
    counter, and leaves in [latest_heartbeat] the value of
    [previous_heartbeat] at the point of failure.  That value is the
    heartbeat before the call when the reload fails at its merge; the
    heartbeat as the reload left it when the merge or the commit of the
    new heartbeat fails; and the new heartbeat, which is committed by
    then, when the failure comes from [heartbeat_callback]. *)
Theorem heartbeat_absorbs_storage_failure (only_if_necessary : bool) (s : St) :
  skipped env only_if_necessary s = false ->
  (forall s' p,
      attempt (checked s, latest_heartbeat (self s))
        = (Raise OperationalError, (s', p)) ->
      fst (beat only_if_necessary s) = Return tt
      /\ latest_heartbeat (self (snd (beat only_if_necessary s))) = p
      /\ stats (snd (beat only_if_necessary s)) !! failure_counter
         = Some (default 0 (stats s' !! failure_counter) + 1))
  /\ (fault env (ops (checked s)) = true ->
      fst (beat only_if_necessary s) = Return tt
      /\ latest_heartbeat (self (snd (beat only_if_necessary s)))
         = latest_heartbeat (self s)
      /\ stats (snd (beat only_if_necessary s)) !! failure_counter
         = Some (default 0 (stats s !! failure_counter) + 1))
  /\ (forall s1 p1,
        heartbeat_reload env (checked s, latest_heartbeat (self s))
          = (Return tt, (s1, p1)) ->
        terminating_states (state (self s1)) = false ->
        (fault env (ops s1) = true \/ fault env (S (ops s1)) = true ->
         fst (beat only_if_necessary s) = Return tt
         /\ latest_heartbeat (self (snd (beat only_if_necessary s)))
            = latest_heartbeat (self s1)
         /\ stats (snd (beat only_if_necessary s)) !! failure_counter
            = Some (default 0 (stats s !! failure_counter) + 1))
        /\ (forall s3 p3 sh,
              heartbeat_commit env (snd (heartbeat_pace env s1), p1)
                = (Return tt, (s3, p3)) ->
              heartbeat_callback (emit (Called HeartbeatCallback) s3)
                = (Raise OperationalError, sh) ->
              fst (beat only_if_necessary s) = Return tt
              /\ latest_heartbeat (self (snd (beat only_if_necessary s)))
                 = Some (clock env (ticks (snd (heartbeat_pace env s1))))
              /\ latest_heartbeat (self s3)
                 = Some (clock env (ticks (snd (heartbeat_pace env s1))))
              /\ stats (snd (beat only_if_necessary s)) !! failure_counter
                 = Some (default 0 (stats sh !! failure_counter) + 1))).
Proof.
  intros Hskip.
  assert (Habsorb : forall s' p,
             attempt (checked s, latest_heartbeat (self s))
               = (Raise OperationalError, (s', p)) ->
             fst (beat only_if_necessary s) = Return tt
             /\ latest_heartbeat (self (snd (beat only_if_necessary s))) = p
             /\ stats (snd (beat only_if_necessary s)) !! failure_counter
                = Some (default 0 (stats s' !! failure_counter) + 1)).
  { intros s' p Htry. rewrite heartbeat_unfold, Hskip, Htry.
    destruct (heartbeat_failed_spec p s') as (sf & -> & Hself & Hstats & _).
    cbn [fst snd]. rewrite Hself, Hstats, lookup_insert_eq. auto. }
  assert (Hchecked : stats (checked s) = stats s).
  { unfold checked. destruct (latest_heartbeat (self s)); reflexivity. }
  split; [exact Habsorb|]. split.
  - intros Hfault.
    destruct (Habsorb (with_pending false
                         (emit SessionClose
                            (with_pending false
                               (emit SessionRollback
                                  (operate (SessionMerge (self (checked s)))
                                           (checked s))))))
                      (latest_heartbeat (self s))) as (H1 & H2 & H3).
    + rewrite heartbeat_try_unfold. unfold heartbeat_reload. unfold_world.
      rewrite Hfault. unfold_world. reflexivity.
    + rewrite H1, H2, H3. unfold_world. rewrite Hchecked. auto.
  - intros s1 p1 Hreload Hterm.
    destruct (heartbeat_reload_ok _ _ _ _ Hreload)
      as (_ & _ & Hp1 & _ & _ & Hstats1).
    destruct (heartbeat_pace_spec s1) as (_ & Hself2 & Hops2 & _ & Hstats2).
    split.
    + intros Hfault. rewrite <- Hops2 in Hfault.
      destruct (heartbeat_write_fails_early _ p1 Hfault) as (s' & Hwrite & Hstats').
      destruct (Habsorb s' p1) as (H1 & H2 & H3).
      { rewrite heartbeat_try_unfold, Hreload, Hterm. exact Hwrite. }
      rewrite H1, H2, H3, Hstats', Hstats2, Hstats1, Hchecked, Hp1. auto.
    + intros s3 p3 sh Hcommit Hhook.
      destruct (heartbeat_write_hook_fails _ _ _ _ _ Hcommit Hhook)
        as (s' & Hwrite & Hstats').
      destruct (Habsorb s' p3) as (H1 & H2 & H3).
      { rewrite heartbeat_try_unfold, Hreload, Hterm. exact Hwrite. }
      rewrite H1, H2, H3, Hstats'.
      assert (Hm : fault env (ops (snd (heartbeat_pace env s1))) = false).
      { revert Hcommit. unfold heartbeat_commit. unfold_world.
        destruct (fault env (ops (snd (heartbeat_pace env s1)))); [discriminate|].
        reflexivity. }
      assert (Hc : fault env (S (ops (snd (heartbeat_pace env s1)))) = false).
      { revert Hcommit. unfold heartbeat_commit. unfold_world. rewrite Hm.
        unfold_world.
        destruct (fault env (S (ops (snd (heartbeat_pace env s1))))); [discriminate|].
        reflexivity. }
      destruct (heartbeat_commit_ok _ p1 Hm Hc) as (s3' & Hcommit' & Hbeat3 & _).
      rewrite Hcommit in Hcommit'. injection Hcommit' as <- ->.
      auto.
Qed.

End HeartbeatFacts.

(** ** [run] *)

Section RunFacts.

Variable env : Env.
Variable class_name : string.
Variable lower : string -> string.
Variable _execute : M St (option Z).

Local Abbreviation start := (entered env lower class_name).
Local Abbreviation job_run := (run env class_name lower _execute).

Lemma entered_trace (s : St) :
  fault env (ops s) = false ->
  trace (start s)
  = trace s ++ [SessionAdd (with_state Running (self s)); SessionCommit;
                MakeTransient; Called Execute]
  /\ run_register env (snd (Stats_incr (lower class_name +:+ "_start") s))
     = (Return tt, snd (run_register env (snd (Stats_incr (lower class_name +:+ "_start") s)))).
Proof.
  intros Hf. unfold entered, run_register. unfold_world.
  rewrite Hf. unfold_world. trace_norm. auto.
Qed.

(** [run], once [_execute] has ended with [r] in the world [se], when the
    storage operations of [run] itself succeed. *)
Lemma run_spec (s se : St) (r : Outcome (option Z)) :
  fault env (ops s) = false ->
  _execute (start s) = (r, se) ->
  fault env (ops se) = false ->
  fault env (S (ops se)) = false ->
  session_end_ok env r se ->
  fst (job_run s) = run_outcome r
  /\ trace (snd (job_run s)) = trace se ++ closing env r se.
Proof.
  intros Hreg Hexec Hmerge Hcommit Hexit.
  unfold entered, run_register in Hexec. revert Hexec.
  unfold run, run_register, run_execute, run_finalize, closing,
    final_record, session_end.
  unfold_world. rewrite Hreg. unfold_world. intros ->.
  destruct r as [v|e]; [|destruct e];
    cbv [session_end_ok run_outcome] in Hexit; unfold_world;
    rewrite Hmerge; unfold_world; rewrite Hcommit; unfold_world;
    destruct (pending se); unfold_world; rewrite ?Hexit; unfold_world;
    trace_norm; auto.
Qed.


(** C1, as amended.  When the storage operations of [run] itself succeed,
    [run] enters the record once as RUNNING before [_execute], and after
    [_execute], however it ended and whether or not it ever called
    [heartbeat], hands the record to the session exactly once more, with
    [end_date] set to the time of finalization and committed.  The state
    of that record is SUCCESS when [_execute] returned or raised
    [SystemExit], FAILED when it raised an [Exception], and the state the
    object was left in when it raised anything else.  What [_execute]
    itself writes comes in addition. *)
Theorem run_finalizes_once (s se : St) (r : Outcome (option Z)) :
  fault env (ops s) = false ->
  _execute (start s) = (r, se) ->
  fault env (ops se) = false ->
  fault env (S (ops se)) = false ->
  session_end_ok env r se ->
  trace (start s)
    = trace s ++ [SessionAdd (with_state Running (self s)); SessionCommit;
                  MakeTransient; Called Execute]
  /\ trace (snd (job_run s)) = trace se ++ closing env r se
  /\ handed (closing env r se) = [final_record env r se]
  /\ end_date (final_record env r se) = Some (clock env (ticks se))
  /\ state (final_record env r se) = final_state r (state (self se))
  /\ (match r with
      | Return _ => True
      | Raise e => e = SystemExit \/ is_Exception e = true
      end ->
      terminal (state (final_record env r se)) = true)
  /\ (forall e, r = Raise e -> e <> SystemExit -> is_Exception e = false ->
      state (final_record env r se) = state (self se)).
Proof.
  intros Hreg Hexec Hmerge Hcommit Hexit.
  destruct (run_spec s se r Hreg Hexec Hmerge Hcommit Hexit) as [_ Htrace].
  destruct (entered_trace s Hreg) as [Hstart _].
  split; [exact Hstart|]. split; [exact Htrace|].
  split; [|split; [reflexivity|split; [reflexivity|split]]].
  - unfold closing, session_end.
    destruct (run_outcome r) as [v|e]; [|destruct (is_Exception e)]; reflexivity.
  - destruct r as [v|e]; [reflexivity|].
    intros [->|He]; [reflexivity|]. cbn. destruct e; try reflexivity; discriminate.
  - intros e -> Hne He. cbn. destruct e; try reflexivity; try discriminate.
    congruence.
Qed.

(** C7, as amended.  When [_execute] raises [SystemExit] the record
    committed at the end has state SUCCESS; when it raises an [Exception]
    the record committed at the end has state FAILED and the exception is
    raised again to the caller of [run], after the [finally] has merged
    and committed the record.  (The storage operations of [run] have to
    succeed.) *)
Theorem run_classifies_exit (s se : St) (e : Exn) :
  fault env (ops s) = false ->
  _execute (start s) = (Raise e, se) ->
  fault env (ops se) = false ->
  fault env (S (ops se)) = false ->
  session_end_ok env (Raise e) se ->
  trace (snd (job_run s)) = trace se ++ closing env (Raise e) se
  /\ end_date (final_record env (Raise e) se) = Some (clock env (ticks se))
  /\ (e = SystemExit -> state (final_record env (Raise e) se) = Success)
  /\ (is_Exception e = true ->
      state (final_record env (Raise e) se) = Failed
      /\ fst (job_run s) = Raise e
      /\ closing env (Raise e) se
         = [Called BeforeStopping; SessionMerge (final_record env (Raise e) se);
            SessionCommit; SessionRollback; SessionClose]).
Proof.
  intros Hreg Hexec Hmerge Hcommit Hexit.
  destruct (run_spec s se (Raise e) Hreg Hexec Hmerge Hcommit Hexit)
    as [Hout Htrace].
  split; [exact Htrace|]. split; [reflexivity|]. split.
  - intros ->. reflexivity.
  - intros He. rewrite Hout. unfold closing, session_end.
    destruct e; try discriminate; cbn; auto.
Qed.

(** C10, as amended.  When [_execute] raises [SystemExit] and the storage
    operations of [run] succeed (the commit that enters the record, the
    merge and the commit of the [finally], and the commit that ends the
    session), [run] records SUCCESS, commits, and returns [None] to its
    caller; any other exception of [_execute] is raised to the caller of
    [run]. *)
Theorem run_swallows_SystemExit (s se : St) (e : Exn) :
  fault env (ops s) = false ->
  _execute (start s) = (Raise e, se) ->
  fault env (ops se) = false ->
  fault env (S (ops se)) = false ->
  session_end_ok env (Raise e) se ->
  (e = SystemExit ->
   fst (job_run s) = Return None
   /\ state (final_record env (Raise e) se) = Success
   /\ trace (snd (job_run s))
      = trace se ++ [Called BeforeStopping;
                     SessionMerge (final_record env (Raise e) se);
                     SessionCommit; SessionCommit; SessionClose])
  /\ (e <> SystemExit -> fst (job_run s) = Raise e).
Proof.
  intros Hreg Hexec Hmerge Hcommit Hexit.
  destruct (run_spec s se (Raise e) Hreg Hexec Hmerge Hcommit Hexit)
    as [Hout Htrace].
  split.
  - intros ->. rewrite Hout, Htrace. auto.
  - intros Hne. rewrite Hout. destruct e; try reflexivity. congruence.
Qed.

End RunFacts.

(** ** The statements at work on the scenarios *)

Section Scenarios.

Import Scenario.

(** On a RUNNING job whose heartbeat is 125 seconds old, [is_alive]
    answers true: 125 is below 60 * 2.1 = 126. *)
Lemma is_alive_after_125_seconds :
  fst (is_alive (at_time 125000000) default_grace_multiplier running)
  = Return true.
Proof. vm_compute. reflexivity. Qed.

Lemma is_alive_sixty_seconds_holds :
  fst (is_alive (at_time 125000000) default_grace_multiplier running)
    = Return true
  /\ fst (is_alive (at_time 126000000) default_grace_multiplier running)
     = Return false.
Proof.
  destruct (is_alive_sixty_seconds (at_time 125000000) 0 running
              eq_refl eq_refl) as (Halive & _).
  destruct (is_alive_sixty_seconds (at_time 126000000) 0 running
              eq_refl eq_refl) as (_ & _ & Hdead & _).
  split; [exact (Halive eq_refl eq_refl) | exact (Hdead eq_refl)].
Defined.

(** Ten seconds after a heartbeat, with a heart rate of 60 seconds, an
    opportunistic [heartbeat] changes nothing but the clock reading. *)
Lemma heartbeat_not_due_holds :
  beat (at_time 10000000) nothing true running = (Return tt, tick running).
Proof.
  apply (heartbeat_not_due (at_time 10000000) terminating "SchedulerJob"
           snake nothing nothing running 0); reflexivity.
Defined.

(** [kill] with a hook that does nothing: the commit comes after the
    call of the hook. *)
Lemma kill_commits_after_hook :
  trace (snd (kill calm nothing running))
  = [SessionQuery (Some 7); Called OnKill;
     SessionMerge (with_end_date (Some 100000000) (with_state Running job));
     SessionCommit; SessionRollback; SessionClose]
  /\ committed_before OnKill (trace (snd (kill calm nothing running))) = false.
Proof. split; vm_compute; reflexivity. Qed.

(** [kill] with a hook that raises: the row is committed all the same and
    the termination signal raised. *)
Lemma kill_commits_after_on_kill_holds :
  fst (kill calm (fails (UserError 1)) running)
    = Raise (AirflowException "Job shut down externally.")
  /\ trace (snd (kill calm (fails (UserError 1)) running))
     = [SessionQuery (Some 7); Called OnKill; Logged LogError;
        SessionMerge (with_end_date (Some 100000000) (with_state Running job));
        SessionCommit; SessionRollback; SessionClose].
Proof.
  destruct (kill_commits_after_on_kill calm (fails (UserError 1))
              running (at_on_kill running) (with_state Running job)
              (Raise (UserError 1)) eq_refl eq_refl eq_refl eq_refl
              eq_refl eq_refl) as (_ & _ & Hsignal & Htrace & _).
  split; [exact Hsignal | exact Htrace].
Defined.

(** The stored state was set to SHUTDOWN, and the query of [kill] fails:
    [heartbeat] returns to its caller. *)
Lemma heartbeat_returns_although_terminating :
  terminating
    (state (self (fst (snd (heartbeat_reload shut_down_unreachable
                              (checked running, Some 0))))))
    = true
  /\ fst (beat shut_down_unreachable nothing false running) = Return tt.
Proof. split; vm_compute; reflexivity. Qed.

(** The stored state was set to SHUTDOWN: [heartbeat] raises the signal
    of [kill]. *)
Lemma heartbeat_kills_on_terminating_state_holds :
  fst (beat shut_down nothing false running)
  = Raise (AirflowException "Job shut down externally.").
Proof.
  pose (reloaded := heartbeat_reload shut_down (checked running, Some 0)).
  destruct (heartbeat_kills_on_terminating_state shut_down terminating
              "SchedulerJob" snake nothing nothing false running
              (fst (snd reloaded)) (snd (snd reloaded))
              eq_refl eq_refl eq_refl) as (_ & _ & Hsignal & _).
  exact (f_equal fst
           (Hsignal "Job shut down externally."
              (snd (kill shut_down nothing (fst (snd reloaded)))) eq_refl)).
Defined.

(** The hook of the heartbeat raises [OperationalError]: the heartbeat of
    the object moves from 0 to the time just committed. *)
Lemma heartbeat_advances_when_hook_fails :
  latest_heartbeat (self running) = Some 0
  /\ fst (beat calm (fails OperationalError) false running) = Return tt
  /\ latest_heartbeat
       (self (snd (beat calm (fails OperationalError) false running)))
     = Some 102000000.
Proof. repeat split; vm_compute; reflexivity. Qed.

(** Storage is unreachable from the first operation on: the heartbeat of
    the object stays, the counter goes from nothing to 1. *)
Lemma heartbeat_absorbs_storage_failure_holds :
  fst (beat unreachable nothing false running) = Return tt
  /\ latest_heartbeat (self (snd (beat unreachable nothing false running)))
     = Some 0
  /\ stats (snd (beat unreachable nothing false running))
       !! "scheduler_job_heartbeat_failure"
     = Some 1.
Proof.
  destruct (heartbeat_absorbs_storage_failure unreachable terminating
              "SchedulerJob" snake nothing nothing false running eq_refl)
    as (_ & Hreload & _).
  exact (Hreload eq_refl).
Defined.

(** [_execute] is interrupted from the keyboard: the record is committed
    twice, both times as RUNNING, and no terminal state is recorded. *)
Lemma run_interrupted_records_no_terminal_state :
  fst (job_run calm (fails KeyboardInterrupt) (world job))
    = Raise KeyboardInterrupt
  /\ map state (handed (trace (snd (job_run calm (fails KeyboardInterrupt)
                                      (world job)))))
     = [Running; Running]
  /\ filter (fun st => terminal st = true)
       (map state (handed (trace (snd (job_run calm (fails KeyboardInterrupt)
                                         (world job))))))
     = [].
Proof. repeat split; vm_compute; reflexivity. Qed.

(** [_execute] raises an exception that is neither [SystemExit] nor an
    [Exception]: the last record committed is RUNNING, not FAILED. *)
Lemma run_interrupted_is_not_failed :
  is_Exception KeyboardInterrupt = false
  /\ last (map state (handed (trace (snd (job_run calm (fails KeyboardInterrupt)
                                            (world job))))))
     = Some Running.
Proof. split; vm_compute; reflexivity. Qed.

Lemma run_finalizes_once_holds :
  trace (snd (job_run calm (returns (Some 3)) (world job)))
  = trace started ++ closing calm (Return (Some 3)) started
  /\ handed (closing calm (Return (Some 3)) started)
     = [final_record calm (Return (Some 3)) started]
  /\ state (final_record calm (Return (Some 3)) started) = Success
  /\ end_date (final_record calm (Return (Some 3)) started) = Some 100000000.
Proof.
  destruct (run_finalizes_once calm "SchedulerJob" lower (returns (Some 3))
              (world job) started (Return (Some 3))
              eq_refl eq_refl eq_refl eq_refl eq_refl)
    as (_ & Htrace & Hhanded & Hend & Hstate & _).
  repeat split; assumption.
Defined.

Lemma run_classifies_exit_holds :
  state (final_record calm (Raise (UserError 2)) started) = Failed
  /\ fst (job_run calm (fails (UserError 2)) (world job)) = Raise (UserError 2).
Proof.
  destruct (run_classifies_exit calm "SchedulerJob" lower (fails (UserError 2))
              (world job) started (UserError 2)
              eq_refl eq_refl eq_refl eq_refl I)
    as (_ & _ & _ & Hfailed).
  destruct (Hfailed eq_refl) as (Hstate & Hraise & _).
  split; assumption.
Defined.

Lemma run_swallows_SystemExit_holds :
  fst (job_run calm (fails SystemExit) (world job)) = Return None
  /\ state (final_record calm (Raise SystemExit) started) = Success.
Proof.
  destruct (run_swallows_SystemExit calm "SchedulerJob" lower (fails SystemExit)
              (world job) started SystemExit
              eq_refl eq_refl eq_refl eq_refl eq_refl)
    as (Hexit & _).
  destruct (Hexit eq_refl) as (Hnone & Hstate & _).
  split; assumption.
Defined.

(** [_execute] raises [SystemExit], the record is committed as SUCCESS,
    and the commit that ends the session fails: [run] does not return
    [None], it raises [OperationalError]. *)
Lemma run_raises_when_session_commit_fails :
  fst (job_run (Cases.failing_at 3) (fails SystemExit) (world job))
    = Raise OperationalError
  /\ map state
       (handed (trace (snd (job_run (Cases.failing_at 3) (fails SystemExit)
                              (world job)))))
     = [Running; Success]
  /\ trace (snd (job_run (Cases.failing_at 3) (fails SystemExit) (world job)))
     = [SessionAdd (with_state Running job); SessionCommit; MakeTransient;
        Called Execute; Called BeforeStopping;
        SessionMerge (with_end_date (Some 100000000) (with_state Success job));
        SessionCommit; SessionCommit; SessionRollback; SessionClose].
Proof. repeat split; vm_compute; reflexivity. Qed.

(** A job killed from outside: [kill], reached through [heartbeat],
    commits [end_date], and the [finally] of [run] commits it again with
    a later time. *)
Lemma run_killed_writes_end_date_twice :
  map (fun j => (state j, end_date j))
      (handed (trace (snd (job_run shut_down
                             (one_beat shut_down)
                             (world job)))))
  = [(Running, None); (Running, None);
     (Shutdown, Some 101000000); (Failed, Some 102000000)].
Proof. vm_compute. reflexivity. Qed.

End Scenarios.

(** * Further properties *)

(** Computing a world whose components are at hand, projections
    included. *)
Ltac world_lazy :=
  lazy beta iota zeta delta
    [ret raise bind gets modify try_finally lift set_local
     utcnow Stats_incr log sleep call storage
     session_add session_commit session_merge_self session_merge
     session_query_first session_rollback session_close make_transient
     create_session set_state set_latest_heartbeat
     with_self with_stats with_pending tick emit operate
     self ticks ops pending stats trace fst snd is_Exception].

(** ** More on [most_recent_job] *)

Section MostRecentJobMore.

Variable identities : option (list string).
Variable null_is_largest : bool.

Local Abbreviation latest := (most_recent_job identities null_is_largest).

(** X1.  As the docstring has it, "jobs in running state take precedence":
    as soon as one row of the queried type is RUNNING, [most_recent_job]
    returns a RUNNING row; a row in another state is returned only when no
    row of the type is RUNNING. *)
Theorem most_recent_job_prefers_running (table : list Job) (j : Job) :
  j ∈ query identities table ->
  state j = Running ->
  exists r, latest table = Some r /\ state r = Running.
Proof.
  intros Hin Hrun. unfold most_recent_job. rewrite head_take_1.
  pose proof (head_order_by null_is_largest (query identities table)) as H.
  destruct (head (order_by null_is_largest (query identities table))) as [r|].
  - destruct H as [_ Hmin]. exists r. split; [reflexivity|].
    destruct (ordered_spec null_is_largest r j (Hmin j Hin)) as [Hfirst _].
    auto.
  - rewrite H in Hin. inversion Hin.
Qed.

Lemma query_Permutation (t1 t2 : list Job) :
  t1 ≡ₚ t2 -> query identities t1 ≡ₚ query identities t2.
Proof. intros H. unfold query. rewrite H. reflexivity. Qed.

(** X2.  The answer does not depend on the order in which the table holds
    its rows, provided no two different rows of the queried type tie on
    both sort keys. *)
Theorem most_recent_job_order_independent (t1 t2 : list Job) :
  t1 ≡ₚ t2 ->
  (forall a b, a ∈ query identities t1 -> b ∈ query identities t1 ->
               ordered null_is_largest a b = true ->
               ordered null_is_largest b a = true -> a = b) ->
  latest t1 = latest t2.
Proof.
  intros Hperm Hties. apply query_Permutation in Hperm.
  unfold most_recent_job. rewrite !head_take_1.
  pose proof (head_order_by null_is_largest (query identities t1)) as H1.
  pose proof (head_order_by null_is_largest (query identities t2)) as H2.
  destruct (head (order_by null_is_largest (query identities t1))) as [r1|],
           (head (order_by null_is_largest (query identities t2))) as [r2|].
  - destruct H1 as [Hin1 Hmin1], H2 as [Hin2 Hmin2].
    f_equal. apply Hties; auto.
    + rewrite Hperm. exact Hin2.
    + apply Hmin1. rewrite Hperm. exact Hin2.
    + apply Hmin2. rewrite <- Hperm. exact Hin1.
  - rewrite H2 in Hperm. apply Permutation_nil_r in Hperm.
    destruct H1 as [Hin1 _]. rewrite Hperm in Hin1. inversion Hin1.
  - rewrite H1 in Hperm. symmetry in Hperm. apply Permutation_nil_r in Hperm.
    destruct H2 as [Hin2 _]. rewrite Hperm in Hin2. inversion Hin2.
  - reflexivity.
Qed.

(** X3.  A row of another job type never changes the answer, wherever it
    stands in the table and whatever its state and heartbeat. *)
Theorem most_recent_job_ignores_other_types (before after : list Job) (j : Job) :
  selected identities j = false ->
  latest (before ++ j :: after) = latest (before ++ after).
Proof.
  intros Hsel. unfold most_recent_job, query.
  rewrite !filter_app, filter_cons_False by (rewrite Hsel; discriminate).
  reflexivity.
Qed.

(** X18.  A new row of the queried type takes the place of the answer only
    if it sorts before it: when the current answer sorts strictly before
    the new row the answer stays, and when the new row sorts strictly
    before the current answer (or there was none) the new row is the
    answer. *)
Theorem most_recent_job_after_insert (table : list Job) (j : Job) :
  selected identities j = true ->
  match latest table with
  | Some r =>
      (ordered null_is_largest j r = false -> latest (j :: table) = Some r)
      /\ (ordered null_is_largest r j = false -> latest (j :: table) = Some j)
  | None => latest (j :: table) = Some j
  end.
Proof.
  intros Hsel. unfold most_recent_job, query.
  rewrite filter_cons_True by exact Hsel.
  rewrite !head_take_1. cbn [order_by foldr]. rewrite head_place.
  fold (order_by null_is_largest (filter (fun j => selected identities j = true) table)).
  destruct (head (order_by null_is_largest _)) as [r|]; [|reflexivity].
  split.
  - intros ->. reflexivity.
  - intros Hrj. destruct (ordered_total null_is_largest j r) as [->|Hrj'];
      [reflexivity|congruence].
Qed.

End MostRecentJobMore.

(** ** More on [is_alive] *)

Section AliveMore.

Variable env : Env.

(** X4.  [is_alive] only looks: it leaves the object, the session and the
    counters as they are and reads the clock at most once.  The one way it
    can fail is on a RUNNING job without a heartbeat, where the difference
    [utcnow() - None] raises [TypeError]. *)
Theorem is_alive_only_reads (grace_multiplier : float) (s : St) :
  self (snd (is_alive env grace_multiplier s)) = self s
  /\ ops (snd (is_alive env grace_multiplier s)) = ops s
  /\ trace (snd (is_alive env grace_multiplier s)) = trace s
  /\ stats (snd (is_alive env grace_multiplier s)) = stats s
  /\ (fst (is_alive env grace_multiplier s) = Raise TypeError
      <-> state (self s) = Running /\ latest_heartbeat (self s) = None)
  /\ (forall e, fst (is_alive env grace_multiplier s) = Raise e -> e = TypeError).
Proof.
  unfold is_alive. unfold_world.
  destruct (state (self s)) eqn:Hst; cbn;
    try (repeat split; try discriminate; intros [? _]; discriminate).
  destruct (latest_heartbeat (self s)) as [b|]; cbn; repeat split;
    try discriminate; try congruence.
  intros [_ ?]. discriminate.
Qed.

End AliveMore.

(** ** More on [heartbeat] *)

(** [max(0, x)] is never below zero, whatever [x] is (a NaN included). *)
Lemma max0_not_negative (x : float) : PrimFloat.ltb (max0 x) 0%float = false.
Proof.
  unfold max0, positive.
  destruct (PrimFloat.ltb 0%float x) eqn:Hpos; [|reflexivity].
  rewrite FloatAxioms.ltb_spec in *.
  change (Prim2SF 0%float) with (S754_zero false) in *.
  destruct (Prim2SF x) as [sg| [] | |[] m e]; cbn in *; congruence.
Qed.

Section HeartbeatMore.

Variable env : Env.
Variable terminating_states : JobState -> bool.
Variable class_name : string.
Variable convert_camel_to_snake : string -> string.
Variable on_kill : M St unit.
Variable heartbeat_callback : M St unit.

Local Abbreviation beat :=
  (heartbeat env terminating_states class_name convert_camel_to_snake
             on_kill heartbeat_callback).
Local Abbreviation attempt :=
  (heartbeat_try env terminating_states on_kill heartbeat_callback).
Local Abbreviation failure_counter :=
  (convert_camel_to_snake class_name +:+ "_heartbeat_failure").

(** X5.  The pacing sleep lasts [max(0, heartrate - elapsed)] seconds, with
    the elapsed time taken from a fresh clock reading, and 0 seconds for a
    job without a heartbeat, for which the clock is not read; the duration
    handed to [sleep] is never negative, whatever the floats involved. *)
Theorem heartbeat_pace_sleeps (s : St) :
  exists d,
    heartbeat_pace env s
    = (Return tt, emit (Slept d) (match latest_heartbeat (self s) with
                                  | Some _ => tick s
                                  | None => s
                                  end))
    /\ d = match latest_heartbeat (self s) with
           | Some b => max0 (remaining (self s) (clock env (ticks s)) b)
           | None => 0%float
           end
    /\ PrimFloat.ltb d 0%float = false.
Proof.
  unfold heartbeat_pace. unfold_world.
  destruct (latest_heartbeat (self s)) as [b|]; unfold_world;
    eexists; repeat split.
  apply max0_not_negative.
Qed.


(** The write of the heartbeat, when its merge and its commit succeed,
    adds the merge and the commit to the trace. *)
Lemma heartbeat_commit_trace (s s3 : St) (p p3 : option datetime) :
  heartbeat_commit env (s, p) = (Return tt, (s3, p3)) ->
  trace s3 = trace s ++ [SessionMerge (self s); SessionCommit]
  /\ latest_heartbeat (self s3) = Some (clock env (ticks s))
  /\ p3 = Some (clock env (ticks s))
  /\ stats s3 = stats s.
Proof.
  unfold heartbeat_commit. unfold_world.
  destruct (fault env (ops s)); unfold_world; [discriminate|].
  destruct (fault env (S (ops s))); unfold_world; [discriminate|].
  destruct (pending s); unfold_world; [destruct (id _)|];
    intros [= <- <-]; unfold_world; trace_norm; repeat split.
Qed.

(** The second session when the hook returns and the session can be
    committed. *)
Lemma heartbeat_write_goes_through (s s3 sh : St) (p p3 : option datetime) :
  heartbeat_commit env (s, p) = (Return tt, (s3, p3)) ->
  heartbeat_callback (emit (Called HeartbeatCallback) s3) = (Return tt, sh) ->
  fault env (ops sh) = false ->
  exists sf,
    heartbeat_write env heartbeat_callback (s, p) = (Return tt, (sf, p3))
    /\ trace sf = trace sh ++ [Logged LogDebug; SessionCommit; SessionClose]
    /\ latest_heartbeat (self sf) = latest_heartbeat (self sh)
    /\ stats sf = stats sh.
Proof.
  intros Hcommit Hhook Hexit. unfold heartbeat_write.
  unfold create_session, try_finally, bind at 1 2.
  rewrite Hcommit. unfold_world. unfold emit in Hhook. rewrite Hhook.
  unfold_world. rewrite Hexit. unfold_world.
  destruct (pending sh); unfold_world; [destruct (id (self sh))|];
    eexists; trace_norm; repeat split.
Qed.

(** The second session when the hook raises. *)
Lemma heartbeat_write_hook_raises (s s3 sh : St) (p p3 : option datetime) (e : Exn) :
  heartbeat_commit env (s, p) = (Return tt, (s3, p3)) ->
  heartbeat_callback (emit (Called HeartbeatCallback) s3) = (Raise e, sh) ->
  exists sf,
    heartbeat_write env heartbeat_callback (s, p) = (Raise e, (sf, p3))
    /\ self sf = self sh
    /\ stats sf = stats sh
    /\ trace sf = trace sh ++ (if is_Exception e then [SessionRollback] else [])
                          ++ [SessionClose].
Proof.
  intros Hcommit Hhook. unfold heartbeat_write.
  unfold create_session, try_finally, bind at 1 2.
  rewrite Hcommit. unfold_world. unfold emit in Hhook. rewrite Hhook.
  unfold_world.
  destruct (is_Exception e); unfold_world; eexists; trace_norm; repeat split.
Qed.

(** X7.  A heartbeat that goes through: the reload succeeded, the state is
    not a terminating one, the merge and the commit of the second session
    succeeded, the hook returned and the session could be committed.  Then
    [heartbeat] returns.  The object is handed to the session, by the
    merge, as the reload left it, before [latest_heartbeat] is assigned;
    [latest_heartbeat] of the object in memory is then set to the time read
    after the pacing sleep; the commit follows, the hook is called only
    after that commit, and nothing is counted as a failure. *)
Theorem heartbeat_goes_through
    (only_if_necessary : bool) (s s1 s3 sh : St) (p1 p3 : option datetime) :
  skipped env only_if_necessary s = false ->
  heartbeat_reload env (checked s, latest_heartbeat (self s))
    = (Return tt, (s1, p1)) ->
  terminating_states (state (self s1)) = false ->
  heartbeat_commit env (snd (heartbeat_pace env s1), p1)
    = (Return tt, (s3, p3)) ->
  heartbeat_callback (emit (Called HeartbeatCallback) s3) = (Return tt, sh) ->
  fault env (ops sh) = false ->
  fst (beat only_if_necessary s) = Return tt
  /\ latest_heartbeat (self s3)
     = Some (clock env (ticks (snd (heartbeat_pace env s1))))
  /\ trace s3
     = trace (snd (heartbeat_pace env s1)) ++ [SessionMerge (self s1); SessionCommit]
  /\ trace (snd (beat only_if_necessary s))
     = trace sh ++ [Logged LogDebug; SessionCommit; SessionClose]
  /\ latest_heartbeat (self (snd (beat only_if_necessary s)))
     = latest_heartbeat (self sh)
  /\ stats (snd (beat only_if_necessary s)) = stats sh.
Proof.
  intros Hskip Hreload Hterm Hcommit Hhook Hexit.
  destruct (heartbeat_commit_trace _ _ _ _ Hcommit) as (Htr3 & Hbeat3 & _ & _).
  destruct (heartbeat_pace_spec env s1) as (_ & Hself2 & _).
  rewrite Hself2 in Htr3.
  destruct (heartbeat_write_goes_through _ _ _ _ _ Hcommit Hhook Hexit)
    as (sf & Hwrite & Htrace & Hbeat & Hstats).
  rewrite (heartbeat_unfold env terminating_states class_name
             convert_camel_to_snake on_kill heartbeat_callback), Hskip.
  rewrite (heartbeat_try_unfold env terminating_states on_kill heartbeat_callback),
    Hreload, Hterm, Hwrite.
  cbn [fst snd]. auto 10.
Qed.

(** X8.  [heartbeat] absorbs [OperationalError] and nothing else.  Any other
    exception that leaves the [try] leaves [heartbeat], with the world as
    it was when it was raised: no failure is counted and
    [latest_heartbeat] is not restored.  So when the hook raises such an
    exception after the commit, the caller gets it, the object keeps the
    heartbeat just assigned (unless the hook changed it), and the session
    is rolled back if the exception is an [Exception] and closed. *)
Theorem heartbeat_propagates_other_exceptions
    (only_if_necessary : bool) (s : St) :
  skipped env only_if_necessary s = false ->
  (forall e s' p,
      e <> OperationalError ->
      attempt (checked s, latest_heartbeat (self s)) = (Raise e, (s', p)) ->
      beat only_if_necessary s = (Raise e, s'))
  /\ (forall e s1 p1 s3 p3 sh,
        e <> OperationalError ->
        heartbeat_reload env (checked s, latest_heartbeat (self s))
          = (Return tt, (s1, p1)) ->
        terminating_states (state (self s1)) = false ->
        heartbeat_commit env (snd (heartbeat_pace env s1), p1)
          = (Return tt, (s3, p3)) ->
        heartbeat_callback (emit (Called HeartbeatCallback) s3) = (Raise e, sh) ->
        fst (beat only_if_necessary s) = Raise e
        /\ self (snd (beat only_if_necessary s)) = self sh
        /\ stats (snd (beat only_if_necessary s)) = stats sh
        /\ trace (snd (beat only_if_necessary s))
           = trace sh ++ (if is_Exception e then [SessionRollback] else [])
                      ++ [SessionClose]).
Proof.
  intros Hskip.
  assert (Hother : forall e s' p,
             e <> OperationalError ->
             attempt (checked s, latest_heartbeat (self s)) = (Raise e, (s', p)) ->
             beat only_if_necessary s = (Raise e, s')).
  { intros e s' p Hne Htry.
    rewrite (heartbeat_unfold env terminating_states class_name
               convert_camel_to_snake on_kill heartbeat_callback), Hskip, Htry.
    destruct e; congruence || reflexivity. }
  split; [exact Hother|].
  intros e s1 p1 s3 p3 sh Hne Hreload Hterm Hcommit Hhook.
  destruct (heartbeat_write_hook_raises _ _ _ _ _ _ Hcommit Hhook)
    as (sf & Hwrite & Hself & Hstats & Htrace).
  rewrite (Hother e sf p3 Hne).
  - cbn [fst snd]. auto.
  - rewrite (heartbeat_try_unfold env terminating_states on_kill
               heartbeat_callback), Hreload, Hterm.
    exact Hwrite.
Qed.

Lemma checked_keeps (w : St) :
  self (checked w) = self w /\ ops (checked w) = ops w
  /\ stats (checked w) = stats w.
Proof.
  unfold checked. destruct (latest_heartbeat (self w)); repeat split.
Qed.

Lemma with_latest_heartbeat_same (j : Job) :
  with_latest_heartbeat (latest_heartbeat j) j = j.
Proof. destruct j; reflexivity. Qed.

(** The reload fails at its merge: what [heartbeat] leaves. *)
Lemma heartbeat_reload_fails (only_if_necessary : bool) (s : St) :
  skipped env only_if_necessary s = false ->
  fault env (ops (checked s)) = true ->
  exists s',
    beat only_if_necessary s = (Return tt, s')
    /\ self s' = self s
    /\ ops s' = S (ops s)
    /\ stats s' = <[failure_counter := default 0 (stats s !! failure_counter) + 1]> (stats s).
Proof.
  intros Hskip Hfault.
  destruct (checked_keeps s) as (Hself & Hops & Hstats).
  rewrite (heartbeat_unfold env terminating_states class_name
             convert_camel_to_snake on_kill heartbeat_callback), Hskip.
  rewrite (heartbeat_try_unfold env terminating_states on_kill heartbeat_callback).
  unfold heartbeat_reload. unfold_world. rewrite Hfault. unfold_world.
  unfold heartbeat_failed. unfold_world.
  eexists. split; [reflexivity|]. unfold_world.
  rewrite Hself, Hops, Hstats, with_latest_heartbeat_same. repeat split.
Qed.

(** X9.  Failures add up and the object stays put: when storage is
    unreachable for two heartbeats in a row, both return, the failure
    counter has grown by 2 and the object, its [latest_heartbeat] included,
    is as it was before the first. *)
Theorem heartbeat_failures_accumulate (first second : bool) (s : St) :
  skipped env first s = false ->
  fault env (ops s) = true ->
  skipped env second (snd (beat first s)) = false ->
  fault env (S (ops s)) = true ->
  fst (beat first s) = Return tt
  /\ fst (beat second (snd (beat first s))) = Return tt
  /\ self (snd (beat second (snd (beat first s)))) = self s
  /\ stats (snd (beat second (snd (beat first s)))) !! failure_counter
     = Some (default 0 (stats s !! failure_counter) + 2).
Proof.
  intros Hskip1 Hfault1 Hskip2 Hfault2.
  assert (Hops : forall w, ops (checked w) = ops w)
    by (intros w; apply checked_keeps).
  destruct (heartbeat_reload_fails first s Hskip1) as (s' & H1 & Hself1 & Hops1 & Hstats1).
  { rewrite Hops. exact Hfault1. }
  rewrite H1 in *. cbn [fst snd] in *.
  destruct (heartbeat_reload_fails second s' Hskip2) as (s'' & H2 & Hself2 & Hops2 & Hstats2).
  { rewrite Hops, Hops1. exact Hfault2. }
  rewrite H2. cbn [fst snd].
  rewrite Hself2, Hself1, Hstats2, Hstats1, !lookup_insert_eq. cbn.
  repeat split. f_equal. lia.
Qed.

End HeartbeatMore.

(** ** More on [kill] *)

Section KillMore.

Variable env : Env.
Variable on_kill : M St unit.

(** X10.  When [kill] cannot load the row, because the query fails or
    because no row has the id of the job, it raises [OperationalError] or
    [AttributeError] instead of the termination signal; [on_kill] is not
    called and nothing is merged or committed, whatever the hook is. *)
Theorem kill_without_row (s : St) :
  (fault env (ops s) = true ->
   kill env on_kill s = (Raise OperationalError, gave_up s))
  /\ (fault env (ops s) = false ->
      found env (ops s) (id (self s)) = None ->
      kill env on_kill s = (Raise AttributeError, tick (gave_up s)))
  /\ trace (gave_up s)
     = trace s ++ [SessionQuery (id (self s)); SessionRollback; SessionClose]
  /\ self (gave_up s) = self s.
Proof.
  unfold kill, gave_up. unfold_world. repeat split.
  - intros ->. unfold_world. reflexivity.
  - intros -> ->. unfold_world. reflexivity.
  - trace_norm. reflexivity.
Qed.

(** X11.  [kill] catches an [Exception] of the hook, not more: when
    [on_kill] raises [SystemExit] or [KeyboardInterrupt], that exception
    leaves [kill] in place of the termination signal, and the row, whose
    [end_date] was set, is neither merged nor committed; the session is
    closed without a rollback. *)
Theorem kill_interrupted_in_hook (s s2 : St) (job : Job) (e : Exn) :
  fault env (ops s) = false ->
  found env (ops s) (id (self s)) = Some job ->
  on_kill (at_on_kill s) = (Raise e, s2) ->
  is_Exception e = false ->
  kill env on_kill s = (Raise e, with_pending false (emit SessionClose s2))
  /\ trace (with_pending false (emit SessionClose s2)) = trace s2 ++ [SessionClose]
  /\ self (with_pending false (emit SessionClose s2)) = self s2.
Proof.
  intros Hquery Hfound Hhook Hexn.
  unfold at_on_kill in Hhook. revert Hhook.
  unfold kill, guarded_on_kill. unfold_world.
  rewrite Hquery. unfold_world. rewrite Hfound. unfold_world.
  intros ->. unfold_world. rewrite Hexn. unfold_world. rewrite Hexn.
  repeat split.
Qed.

(** X12.  When the merge or the commit that follows the hook fails, [kill]
    raises [OperationalError] in place of the termination signal: the
    [end_date] it set is not committed, and the session is rolled back. *)
Theorem kill_fails_to_commit (s s2 : St) (job : Job) (r : Outcome unit) :
  fault env (ops s) = false ->
  found env (ops s) (id (self s)) = Some job ->
  on_kill (at_on_kill s) = (r, s2) ->
  match r with Return _ => True | Raise e => is_Exception e = true end ->
  fault env (ops s2) = true \/ fault env (S (ops s2)) = true ->
  fst (kill env on_kill s) = Raise OperationalError
  /\ trace (snd (kill env on_kill s))
     = trace s2
       ++ match r with Return _ => [] | Raise _ => [Logged LogError] end
       ++ [SessionMerge (with_end_date (Some (clock env (ticks s))) job)]
       ++ (if fault env (ops s2) then [] else [SessionCommit])
       ++ [SessionRollback; SessionClose].
Proof.
  intros Hquery Hfound Hhook Hexn Hfault.
  unfold at_on_kill in Hhook. revert Hhook.
  unfold kill, guarded_on_kill. unfold_world.
  rewrite Hquery. unfold_world. rewrite Hfound. unfold_world.
  intros ->. destruct r as [[]|e]; unfold_world; rewrite ?Hexn; unfold_world;
    destruct (fault env (ops s2)) eqn:Hmerge; unfold_world;
    try (trace_norm; split; reflexivity);
    destruct Hfault as [?|Hcommit]; try discriminate;
    rewrite Hcommit; unfold_world; trace_norm; split; reflexivity.
Qed.

End KillMore.

(** ** More on [run] *)

Section RunMore.

Variable env : Env.
Variable class_name : string.
Variable lower : string -> string.
Variable _execute : M St (option Z).

Local Abbreviation start := (entered env lower class_name).
Local Abbreviation job_run := (run env class_name lower _execute).
Local Abbreviation start_counter := (lower class_name +:+ "_start").
Local Abbreviation end_counter := (lower class_name +:+ "_end").

(** X14.  When the commit that enters the record fails, [run] raises
    [OperationalError] without calling [_execute]: the start was counted,
    the end is not, no [end_date] is set, and the object is left in state
    RUNNING although no row says so. *)
Theorem run_fails_to_register (s : St) :
  fault env (ops s) = true ->
  job_run s = (Raise OperationalError, never_entered lower class_name s)
  /\ trace (never_entered lower class_name s)
     = trace s ++ [SessionAdd (with_state Running (self s)); SessionCommit;
                   SessionRollback; SessionClose]
  /\ self (never_entered lower class_name s) = with_state Running (self s)
  /\ stats (never_entered lower class_name s)
     = <[start_counter := default 0 (stats s !! start_counter) + 1]> (stats s).
Proof.
  intros Hfault. destruct s as [j t n p m tr]. cbn [ops] in Hfault.
  unfold run, run_register, never_entered. world_lazy.
  rewrite Hfault. world_lazy. trace_norm. repeat split.
Qed.

(** X15.  An exception of the [finally] replaces whatever [_execute] did:
    when the final merge or commit fails, [run] raises [OperationalError]
    even if [_execute] returned, raised [SystemExit] or raised another
    exception, which is lost; the end is not counted and the session is
    rolled back. *)
Theorem run_fails_to_finalize (s se : St) (r : Outcome (option Z)) :
  fault env (ops s) = false ->
  _execute (start s) = (r, se) ->
  fault env (ops se) = true \/ fault env (S (ops se)) = true ->
  fst (job_run s) = Raise OperationalError
  /\ trace (snd (job_run s))
     = trace se
       ++ [Called BeforeStopping; SessionMerge (final_record env r se)]
       ++ (if fault env (ops se) then [] else [SessionCommit])
       ++ [SessionRollback; SessionClose]
  /\ stats (snd (job_run s)) = stats se.
Proof.
  intros Hreg Hexec Hfault.
  unfold entered, run_register in Hexec. revert Hexec.
  unfold run, run_register, run_execute, run_finalize, final_record.
  unfold_world. rewrite Hreg. unfold_world. intros ->.
  destruct r as [v|e]; [|destruct e]; unfold_world;
    destruct (fault env (ops se)) eqn:Hmerge; unfold_world;
    try (trace_norm; repeat split; reflexivity);
    destruct Hfault as [?|Hcommit]; try discriminate;
    rewrite Hcommit; unfold_world; trace_norm; repeat split; reflexivity.
Qed.

(** X16.  [run] hands the value of [_execute] to its caller and counts the
    end of the job exactly when it returns: the start counter grows by 1
    before [_execute] is called, the end counter by 1 after the session is
    closed, and not at all when [run] raises. *)
Theorem run_counts_start_and_end (s se : St) (r : Outcome (option Z)) :
  fault env (ops s) = false ->
  _execute (start s) = (r, se) ->
  fault env (ops se) = false ->
  fault env (S (ops se)) = false ->
  session_end_ok env r se ->
  stats (start s)
    = <[start_counter := default 0 (stats s !! start_counter) + 1]> (stats s)
  /\ stats (snd (job_run s))
     = match run_outcome r with
       | Return _ => <[end_counter := default 0 (stats se !! end_counter) + 1]> (stats se)
       | Raise _ => stats se
       end
  /\ (forall v, r = Return v ->
        fst (job_run s) = Return v
        /\ state (final_record env r se) = Success).
Proof.
  intros Hreg Hexec Hmerge Hcommit Hexit.
  split.
  { unfold entered, run_register. unfold_world. rewrite Hreg. unfold_world.
    reflexivity. }
  unfold entered, run_register in Hexec. revert Hexec.
  unfold run, run_register, run_execute, run_finalize, final_record.
  unfold_world. rewrite Hreg. unfold_world. intros ->.
  destruct r as [v|e]; [|destruct e];
    cbv [session_end_ok run_outcome] in Hexit; unfold_world;
    rewrite Hmerge; unfold_world; rewrite Hcommit; unfold_world;
    destruct (pending se); unfold_world; rewrite ?Hexit; unfold_world;
    (split; [reflexivity|]); intros v' [= <-] || intros v' [=]; auto.
Qed.

End RunMore.

Section RunBase.

Variable env : Env.
Variable class_name : string.
Variable lower : string -> string.


End RunBase.

(** ** The further properties at work *)

Ltac by_computation := vm_compute; reflexivity.

Section MoreScenarios.

Import Scenario Cases.

Lemma most_recent_job_prefers_running_holds :
  exists r,
    most_recent_job schedulers true
      [scheduler Failed 9000000; scheduler Running 5000000] = Some r
    /\ state r = Running.
Proof.
  apply (most_recent_job_prefers_running schedulers true
           [scheduler Failed 9000000; scheduler Running 5000000]
           (scheduler Running 5000000)).
  - vm_compute. apply list_elem_of_further, list_elem_of_here.
  - reflexivity.
Defined.

Lemma most_recent_job_order_independent_holds :
  most_recent_job schedulers false
    [scheduler Failed 9000000; scheduler Running 5000000]
  = most_recent_job schedulers false
      [scheduler Running 5000000; scheduler Failed 9000000].
Proof.
  apply (most_recent_job_order_independent schedulers false).
  - apply perm_swap.
  - intros a b Ha Hb.
    change (query schedulers
              [scheduler Failed 9000000; scheduler Running 5000000])
      with [scheduler Failed 9000000; scheduler Running 5000000] in Ha, Hb.
    apply elem_of_cons in Ha as [->|Ha]; apply elem_of_cons in Hb as [->|Hb];
      try apply list_elem_of_singleton in Ha as ->;
      try apply list_elem_of_singleton in Hb as ->;
      vm_compute; congruence.
Defined.

Lemma most_recent_job_ignores_other_types_holds :
  most_recent_job schedulers true
    ([scheduler Failed 9000000] ++ backfill Running 9500000
       :: [scheduler Failed 5000000])
  = most_recent_job schedulers true
      ([scheduler Failed 9000000] ++ [scheduler Failed 5000000]).
Proof.
  apply (most_recent_job_ignores_other_types schedulers true). by_computation.
Defined.

Lemma most_recent_job_after_insert_holds :
  most_recent_job schedulers true
    [scheduler Running 5000000; scheduler Failed 9000000]
  = Some (scheduler Running 5000000).
Proof.
  pose proof (most_recent_job_after_insert schedulers true
                [scheduler Failed 9000000] (scheduler Running 5000000)
                ltac:(by_computation)) as H.
  exact (proj2 H ltac:(by_computation)).
Defined.

Lemma heartbeat_goes_through_holds :
  fst (beat calm nothing false running) = Return tt
  /\ latest_heartbeat (self (snd (beat calm nothing false running)))
     = Some 102000000.
Proof.
  pose (reloaded := heartbeat_reload calm (checked running, Some 0)).
  pose (written := heartbeat_commit calm
                     (snd (heartbeat_pace calm (fst (snd reloaded))),
                      snd (snd reloaded))).
  destruct (heartbeat_goes_through calm terminating "SchedulerJob" snake
              nothing nothing false running
              (fst (snd reloaded)) (fst (snd written))
              (emit (Called HeartbeatCallback) (fst (snd written)))
              (snd (snd reloaded)) (snd (snd written))
              ltac:(by_computation) ltac:(by_computation)
              ltac:(by_computation) ltac:(by_computation)
              ltac:(by_computation) ltac:(by_computation))
    as (Hret & _ & _ & _ & Hbeat & _).
  unfold beat. split; [exact Hret |]. etrans; [exact Hbeat | by_computation].
Defined.

Lemma heartbeat_propagates_other_exceptions_holds :
  fst (beat calm (fails (UserError 3)) false running) = Raise (UserError 3)
  /\ stats (snd (beat calm (fails (UserError 3)) false running)) = ∅.
Proof.
  pose (reloaded := heartbeat_reload calm (checked running, Some 0)).
  pose (written := heartbeat_commit calm
                     (snd (heartbeat_pace calm (fst (snd reloaded))),
                      snd (snd reloaded))).
  destruct (heartbeat_propagates_other_exceptions calm terminating
              "SchedulerJob" snake nothing (fails (UserError 3)) false running
              ltac:(by_computation)) as (_ & Hhook).
  destruct (Hhook (UserError 3) (fst (snd reloaded)) (snd (snd reloaded))
              (fst (snd written)) (snd (snd written))
              (emit (Called HeartbeatCallback) (fst (snd written)))
              ltac:(discriminate) ltac:(by_computation)
              ltac:(by_computation) ltac:(by_computation)
              ltac:(by_computation))
    as (Hraise & _ & Hstats & _).
  unfold beat. split; [exact Hraise |]. etrans; [exact Hstats | by_computation].
Defined.

Lemma heartbeat_failures_accumulate_holds :
  stats (snd (beat down nothing false (snd (beat down nothing false running))))
    !! "scheduler_job_heartbeat_failure"
  = Some 2.
Proof.
  destruct (heartbeat_failures_accumulate down terminating "SchedulerJob"
              snake nothing nothing false false running
              ltac:(by_computation) ltac:(by_computation)
              ltac:(by_computation) ltac:(by_computation))
    as (_ & _ & _ & Hcount).
  unfold beat. etrans; [exact Hcount | by_computation].
Defined.

Lemma kill_interrupted_in_hook_holds :
  fst (kill calm (fails KeyboardInterrupt) running) = Raise KeyboardInterrupt
  /\ trace (snd (kill calm (fails KeyboardInterrupt) running))
     = [SessionQuery (Some 7); Called OnKill; SessionClose].
Proof.
  destruct (kill_interrupted_in_hook calm (fails KeyboardInterrupt) running
              (at_on_kill running) (with_state Running job) KeyboardInterrupt
              ltac:(by_computation) ltac:(by_computation)
              ltac:(by_computation) ltac:(by_computation)) as (Hkill & _).
  rewrite Hkill. split; by_computation.
Defined.

Lemma kill_fails_to_commit_holds :
  fst (kill (failing_at 2) nothing running) = Raise OperationalError.
Proof.
  destruct (kill_fails_to_commit (failing_at 2) nothing running
              (at_on_kill running) (with_state Running job) (Return tt)
              ltac:(by_computation) ltac:(by_computation)
              ltac:(by_computation) I
              ltac:(right; by_computation)) as (Hkill & _).
  exact Hkill.
Defined.

Lemma run_fails_to_register_holds :
  fst (job_run (failing_at 0) (returns (Some 3)) (world job))
  = Raise OperationalError.
Proof.
  destruct (run_fails_to_register (failing_at 0) "SchedulerJob" lower
              (returns (Some 3)) (world job) ltac:(by_computation))
    as (Hrun & _).
  unfold job_run. rewrite Hrun. reflexivity.
Defined.

Lemma run_fails_to_finalize_holds :
  fst (job_run (failing_at 1) (returns (Some 3)) (world job))
  = Raise OperationalError.
Proof.
  destruct (run_fails_to_finalize (failing_at 1) "SchedulerJob" lower
              (returns (Some 3)) (world job)
              (entered (failing_at 1) lower "SchedulerJob" (world job))
              (Return (Some 3)) ltac:(by_computation) ltac:(by_computation)
              ltac:(left; by_computation))
    as (Hrun & _).
  exact Hrun.
Defined.

Lemma run_counts_start_and_end_holds :
  fst (job_run calm (returns (Some 3)) (world job)) = Return (Some 3)
  /\ stats (snd (job_run calm (returns (Some 3)) (world job)))
       !! "schedulerjob_end" = Some 1.
Proof.
  destruct (run_counts_start_and_end calm "SchedulerJob" lower
              (returns (Some 3)) (world job) started (Return (Some 3))
              ltac:(by_computation) ltac:(by_computation)
              ltac:(by_computation) ltac:(by_computation)
              ltac:(by_computation))
    as (_ & Hstats & Hret).
  destruct (Hret (Some 3) eq_refl) as (Hvalue & _).
  unfold job_run. split; [exact Hvalue|].
  etrans; [exact (f_equal (fun m => m !! "schedulerjob_end") Hstats)
          | by_computation].
Defined.


End MoreScenarios.
